(** * The cart logic of the super-app client

    Two screens of the client keep a shopping cart in a React state cell:

    - [ShoppingScreen] (src/app/(tabs)/profile.tsx, second document of the
      file): [addToCart], [decreaseQuantity], [removeFromCart],
      [getCartItem], [totalCartItems];
    - [CartScreen] (src/app/(auth)/Login.tsx, third document of the file):
      [increaseQuantity], [decreaseQuantity], [removeItem], [totalAmount].

    Every handler has the form [setCart(prev => e)]: the new cart is a
    function of the previous one, which is what is embedded here.  The
    [Alert.alert] calls that follow do not touch the cart and are left out.

    Besides the handlers, the development covers what the two screens draw
    from the cart (the badge, the empty view), the product search of
    [ShoppingScreen] ([filteredProducts]) and the list of expanded questions
    of [FAQScreen] (src/app/(tabs)/faq.tsx, [toggleExpand]). *)

From Stdlib Require Import ZArith List Lia Bool Ascii String.
From Stdlib Require Import Floats.PrimFloat Floats.FloatOps Floats.SpecFloat.
Import ListNotations.
Local Open Scope Z_scope.
Set Warnings "-inexact-float".

(** ** JavaScript numbers

    Prices and amounts are IEEE 754 doubles, taken as Rocq's primitive
    [float] with its [+] and [*].  Quantities only ever hold integers (they
    start at 1 and move by 1), so they are kept in [Z], where [+ 1] and
    [- 1] are exact as they are on doubles below 2^53.  Where a quantity
    meets a price it is turned into the double nearest to it
    ([number_of_Z]), which is the integer itself up to 2^53. *)

Definition number_of_Z (z : Z) : float :=
  SF2Prim (binary_normalize prec emax z 0 false).

(** ** Data model *)

(** What the cart code reads of a catalog entry: the key compared with
    [===] and the unit price.  The [Product] declaration of
    src/data/shopData.ts is not part of the sources at hand and
    [CartScreen] is untyped, so the entry is a parameter. *)
Class Catalog (Product Id : Type) := {
  Id_eq_dec : forall x y : Id, {x = y} + {x <> y};
  identity : Product -> Id;
  price : Product -> float
}.

(** One line of a cart: [type CartItem = { product: Product; quantity: number }]
    of [ShoppingScreen].  In [CartScreen] the quantity sits in the same
    object as the catalog fields ([id], [title], [price], [image]);
    [product] then stands for those fields, so that [item.id] and
    [item.price] there are [identity (product item)] and
    [price (product item)] here.  Both screens only ever rebuild a line with
    [{ ...item, quantity: q }], which is [with_quantity]. *)
Record CartItem (Product : Type) := mkCartItem { product : Product; quantity : Z }.
Arguments mkCartItem {Product} _ _.
Arguments product {Product} _.
Arguments quantity {Product} _.

Definition Cart (Product : Type) := list (CartItem Product).

Definition with_quantity {Product} (item : CartItem Product) (q : Z) : CartItem Product :=
  {| product := product item; quantity := q |}.

Section Lines.
Context {Product Id : Type} `{Catalog Product Id}.

Definition line_id (item : CartItem Product) : Id := identity (product item).

(** [item.product.id === productId], [item.id === id] *)
Definition has_id (k : Id) (item : CartItem Product) : bool :=
  if Id_eq_dec (line_id item) k then true else false.

Definition ids (cart : Cart Product) : list Id := map line_id cart.
End Lines.

(** ** ShoppingScreen *)

Module ShoppingScreen.
Section Handlers.
Context {Product Id : Type} `{Catalog Product Id}.

(** [cart.find(item => item.product.id === productId)] *)
Definition getCartItem (cart : Cart Product) (productId : Id) : option (CartItem Product) :=
  find (has_id productId) cart.

Definition addToCart (product : Product) (prev : Cart Product) : Cart Product :=
  match find (has_id (identity product)) prev with
  | Some _existing =>
      map (fun item =>
             if has_id (identity product) item
             then with_quantity item (quantity item + 1)
             else item) prev
  | None => prev ++ [ mkCartItem product 1 ]
  end.

Definition decreaseQuantity (productId : Id) (prev : Cart Product) : Cart Product :=
  filter (fun item => 0 <? quantity item)
    (map (fun item =>
            if has_id productId item
            then with_quantity item (quantity item - 1)
            else item) prev).

Definition removeFromCart (productId : Id) (prev : Cart Product) : Cart Product :=
  filter (fun item => negb (has_id productId item)) prev.

(** [cart.reduce((sum, item) => sum + item.quantity, 0)] *)
Definition totalCartItems (cart : Cart Product) : Z :=
  fold_left (fun sum item => sum + quantity item) cart 0.
End Handlers.
End ShoppingScreen.

(** ** CartScreen *)

Module CartScreen.
Section Handlers.
Context {Product Id : Type} `{Catalog Product Id}.

(** [cartItems.reduce((sum, item) => sum + item.price * item.quantity, 0)] *)
Definition totalAmount (cartItems : Cart Product) : float :=
  fold_left
    (fun sum item => (sum + price (product item) * number_of_Z (quantity item))%float)
    cartItems 0%float.

Definition increaseQuantity (id : Id) (prev : Cart Product) : Cart Product :=
  map (fun item =>
         if has_id id item then with_quantity item (quantity item + 1) else item)
      prev.

Definition decreaseQuantity (id : Id) (prev : Cart Product) : Cart Product :=
  map (fun item =>
         if has_id id item then
           let newQuantity := quantity item - 1 in
           with_quantity item (if 0 <? newQuantity then newQuantity else 1)
         else item)
      prev.

Definition removeItem (id : Id) (prev : Cart Product) : Cart Product :=
  filter (fun item => negb (has_id id item)) prev.
End Handlers.

(** The entries the screen starts from ([initialCartItems]). *)
Record Entry := mkEntry {
  id : string; title : string; entry_price : float; image : string
}.

#[global] Instance Entry_catalog : Catalog Entry string := {|
  Id_eq_dec := string_dec;
  identity := id;
  price := entry_price
|}.

Definition initialCartItems : Cart Entry :=
  [ {| product := mkEntry "1" "Fjallraven Backpack" 109.95
                 "https://fakestoreapi.com/img/81fPKd-2AYL._AC_SL1500_.jpg";
       quantity := 1 |};
    {| product := mkEntry "2" "Mens Casual Slim Fit" 15.99
                 "https://fakestoreapi.com/img/71YXzeOuslL._AC_UY879_.jpg";
       quantity := 1 |};
    {| product := mkEntry "3" "Solid Gold Petite Micropave" 168.0
                 "https://fakestoreapi.com/img/61sbMiUnoGL._AC_UL640_QL65_ML3_.jpg";
       quantity := 1 |} ].
End CartScreen.

(** ** The product records of the shop *)

Module ShopData.
Record Rating := mkRating { rate : float; count : Z }.

(** Modelled from the spec: the [Product] type of src/data/shopData.ts,
    which is not part of the sources at hand ("identity, display title,
    unit price, optional rating/category metadata"); the fields are those
    [ShoppingScreen] reads ([id], [title], [price], [image], [category],
    [rating.rate], [rating.count]). *)
Record Product := mkProduct {
  id : Z; title : string; product_price : float;
  category : string; image : string; rating : Rating
}.

#[global] Instance Product_catalog : Catalog Product Z := {|
  Id_eq_dec := Z.eq_dec;
  identity := id;
  price := product_price
|}.

(** The two items of the scenario of the specification,
    [{id: 1, price: 10.00}] and [{id: 2, price: 5.50}]. *)
Definition item1 : Product := mkProduct 1 "" 10 "" "" (mkRating 0 0).
Definition item2 : Product := mkProduct 2 "" 5.5 "" "" (mkRating 0 0).
End ShopData.

(** ** The reconciler

    The four mutating operations of the specification, each bound to the
    handler that implements it.  [decrement] takes the floor policy: the
    clamp of [CartScreen] or the removal at zero of [ShoppingScreen]. *)

Inductive FloorPolicy := Clamp | RemoveAtZero.

Section Reconciler.
Context {Product Id : Type} `{Catalog Product Id}.

Definition addOrIncrement (a : Product) : Cart Product -> Cart Product :=
  ShoppingScreen.addToCart a.

Definition increment (k : Id) : Cart Product -> Cart Product :=
  CartScreen.increaseQuantity k.

Definition decrement (policy : FloorPolicy) (k : Id) : Cart Product -> Cart Product :=
  match policy with
  | Clamp => CartScreen.decreaseQuantity k
  | RemoveAtZero => ShoppingScreen.decreaseQuantity k
  end.

(** [removeFromCart] and [removeItem] have the same body. *)
Definition remove (k : Id) : Cart Product -> Cart Product :=
  ShoppingScreen.removeFromCart k.

Inductive Operation :=
| AddOrIncrement (a : Product)
| Increment (k : Id)
| Decrement (policy : FloorPolicy) (k : Id)
| Remove (k : Id).

Definition apply (op : Operation) : Cart Product -> Cart Product :=
  match op with
  | AddOrIncrement a => addOrIncrement a
  | Increment k => increment k
  | Decrement policy k => decrement policy k
  | Remove k => remove k
  end.

(** The cart after a sequence of operations, first operation first. *)
Definition run (ops : list Operation) (cart : Cart Product) : Cart Product :=
  fold_left (fun c op => apply op c) ops cart.

(** The derived values a screen computes from its cart while rendering:
    [cartItems.length], [totalCartItems] and [totalAmount]. *)
Record Totals := mkTotals { lineCount : Z; totalQuantity : Z; totalAmount : float }.

Definition computeTotals (cart : Cart Product) : Totals :=
  {| lineCount := Z.of_nat (List.length cart);
     totalQuantity := ShoppingScreen.totalCartItems cart;
     totalAmount := CartScreen.totalAmount cart |}.

(** A render pass reads the state cell and calls no setter: it returns the
    derived values together with the cart the cell holds afterwards. *)
Definition render (cart : Cart Product) : Totals * Cart Product :=
  (computeTotals cart, cart).

(** The invariants of the data model. *)
Definition unique_ids (cart : Cart Product) : Prop := NoDup (ids cart).

Definition quantities_from (floor : Z) (cart : Cart Product) : Prop :=
  Forall (fun item => floor <= quantity item) cart.
End Reconciler.

Arguments Operation Product Id : clear implicits.

(** The shape shared by the [map] of every handler: the lines with identity
    [k] get the quantity [f] computes from the old one, the others are kept
    as they are.  Used to reason about the handlers, which unfold to it. *)
Definition update {Product Id : Type} `{Catalog Product Id}
    (k : Id) (f : Z -> Z) (cart : Cart Product) : Cart Product :=
  map (fun item => if has_id k item then with_quantity item (f (quantity item)) else item)
      cart.

(** The quantity the clamp of [CartScreen] writes back for a line at [q]:
    [newQuantity > 0 ? newQuantity : 1] with [newQuantity = q - 1]. *)
Definition clamped (q : Z) : Z := if 0 <? q - 1 then q - 1 else 1.

(** What a decrement or a removal of identity [k] may do to a cart: the
    lines of other identities are the same lines in the same order, a line
    of identity [k] gives way, in place, to at most one line of the same
    product, and a cart without [k] is returned as it is. *)
Definition framed {Product Id : Type} `{Catalog Product Id}
    (k : Id) (before after : Cart Product) : Prop :=
  filter (fun item => negb (has_id k item)) after
  = filter (fun item => negb (has_id k item)) before
  /\ (forall cart1 item cart2,
        before = cart1 ++ item :: cart2 -> line_id item = k ->
        exists kept,
          after = cart1 ++ kept ++ cart2
          /\ (List.length kept <= 1)%nat
          /\ Forall (fun item' => product item' = product item) kept)
  /\ (~ In k (ids before) -> after = before).

(** ** Sums as the specification writes them

    [sigma zero add n f] is the sum of [f 0], ..., [f (n-1)], built up in
    index order from [zero]. *)
Fixpoint sigma {A : Type} (zero : A) (add : A -> A -> A) (n : nat) (f : nat -> A) : A :=
  match n with
  | O => zero
  | S m => add (sigma zero add m f) (f m)
  end.

Section Sums.
Context {Product Id : Type} `{Catalog Product Id}.

(** [line.item.price * line.quantity] of the line at index [i] *)
Definition line_amount (cart : Cart Product) (i : nat) : float :=
  match nth_error cart i with
  | Some line => (price (product line) * number_of_Z (quantity line))%float
  | None => 0%float
  end.

Definition line_quantity (cart : Cart Product) (i : nat) : Z :=
  match nth_error cart i with
  | Some line => quantity line
  | None => 0
  end.

Definition sum_of_amounts (cart : Cart Product) : float :=
  sigma 0%float PrimFloat.add (List.length cart) (line_amount cart).

Definition sum_of_quantities (cart : Cart Product) : Z :=
  sigma 0 Z.add (List.length cart) (line_quantity cart).
End Sums.

(** ** What the screens show of the cart *)

Section Rendering.
Context {Product Id : Type} `{Catalog Product Id}.

(** [ShoppingScreen]: the badge on the cart icon,
    [{totalCartItems > 0 && (... <Text>{totalCartItems}</Text> ...)}];
    [None] when no badge is drawn. *)
Definition cartBadge (cart : Cart Product) : option Z :=
  if 0 <? ShoppingScreen.totalCartItems cart
  then Some (ShoppingScreen.totalCartItems cart)
  else None.

(** [CartScreen]: [cartItems.length === 0], which selects the
    "Your cart is empty!" view and is the [disabled] flag of the Payment
    button. *)
Definition paymentDisabled (cartItems : Cart Product) : bool :=
  (List.length cartItems =? 0)%nat.
End Rendering.

(** ** The product search of ShoppingScreen *)

Module Search.
Import ShopData.

(** [s.includes(t)]: [t] occurs in [s] as a run of consecutive
    characters. *)
Fixpoint includes (s t : string) : bool :=
  String.prefix t s
  || match s with
     | EmptyString => false
     | String _ s' => includes s' t
     end.

Section Filter.
(** [String.prototype.toLowerCase] is left open: what is proved holds for
    whatever it does to a string.  [shopData] is the catalog of
    src/data/shopData.ts, which is not part of the sources at hand. *)
Variable toLowerCase : string -> string.
Variable shopData : list Product.

Definition filteredProducts (searchQuery : string) : list Product :=
  filter (fun product =>
            let lowerQuery := toLowerCase searchQuery in
            includes (toLowerCase (title product)) lowerQuery
            || includes (toLowerCase (category product)) lowerQuery)
         shopData.
End Filter.

(** Lower-casing of the letters A to Z, every other character kept: what
    [toLowerCase] does on ASCII text. *)
Definition lower_ascii (c : ascii) : ascii :=
  let n := nat_of_ascii c in
  if ((65 <=? n) && (n <=? 90))%nat then ascii_of_nat (n + 32) else c.

Fixpoint toLowerCaseAscii (s : string) : string :=
  match s with
  | EmptyString => EmptyString
  | String c s' => String (lower_ascii c) (toLowerCaseAscii s')
  end.
End Search.

(** ** FAQScreen

    src/app/(tabs)/faq.tsx: the indexes of the expanded questions are kept
    in a state cell, [toggleExpand] is the updater passed to its setter. *)

Module FAQScreen.
(** [expandedIndexes.includes(idx)] *)
Definition expanded (expandedIndexes : list nat) (idx : nat) : bool :=
  existsb (fun i => i =? idx)%nat expandedIndexes.

Definition toggleExpand (index : nat) (prev : list nat) : list nat :=
  if expanded prev index
  then filter (fun i => negb (i =? index)%nat) prev
  else prev ++ [index].
End FAQScreen.

(** The operations [CartScreen] has buttons for: plus, minus (with the
    clamp) and Remove. *)
Definition cart_screen_op {Product Id : Type} (op : Operation Product Id) : Prop :=
  match op with
  | Increment _ | Decrement Clamp _ | Remove _ => True
  | AddOrIncrement _ | Decrement RemoveAtZero _ => False
  end.

(** ** Sample data

    A small catalog and cart on which the properties below are
    instantiated. *)

Module Samples.
Import ShopData.

Definition backpack : Product :=
  mkProduct 1 "Fjallraven Backpack" 109.95 "men's clothing" "" (mkRating 3.9 120).

Definition ring : Product :=
  mkProduct 2 "Solid Gold Petite Micropave" 168 "jewelery" "" (mkRating 3.9 70).

Definition catalog : list Product := [backpack; ring].

Definition cart : Cart Product := [mkCartItem backpack 2; mkCartItem ring 1].
End Samples.

(** * Properties *)

(** ** Sums *)

Section SigmaFacts.
Context {A : Type} (zero : A) (add : A -> A -> A).

Lemma sigma_ext (n : nat) (f g : nat -> A) :
  (forall i, (i < n)%nat -> f i = g i) -> sigma zero add n f = sigma zero add n g.
Proof.
  induction n as [|n IH]; intros Hfg; simpl.
  - reflexivity.
  - rewrite IH by (intros i Hi; apply Hfg; lia).
    rewrite Hfg by lia. reflexivity.
Qed.

(** A [reduce] that adds one term per element is the indexed sum of
    those terms. *)
Lemma reduce_is_sigma {B : Type} (term : B -> A) (d : A) (xs : list B) :
  fold_left (fun sum x => add sum (term x)) xs zero
  = sigma zero add (List.length xs)
      (fun i => match nth_error xs i with Some x => term x | None => d end).
Proof.
  induction xs as [|x xs IH] using rev_ind.
  - reflexivity.
  - rewrite fold_left_app, length_app, Nat.add_comm. simpl.
    rewrite IH. f_equal.
    + apply sigma_ext. intros i Hi.
      rewrite nth_error_app1 by exact Hi. reflexivity.
    + rewrite nth_error_app2 by lia. rewrite Nat.sub_diag. reflexivity.
Qed.
End SigmaFacts.

(** ** Lines, identities and the handlers' [map] and [filter] *)

Section CartFacts.
Context {Product Id : Type} `{Catalog Product Id}.
Implicit Types (cart prev : Cart Product) (k : Id) (item : CartItem Product).

Lemma has_id_true k item : has_id k item = true <-> line_id item = k.
Proof.
  unfold has_id. destruct (Id_eq_dec (line_id item) k); split; congruence.
Qed.

Lemma has_id_false k item : has_id k item = false <-> line_id item <> k.
Proof.
  unfold has_id. destruct (Id_eq_dec (line_id item) k); split; congruence.
Qed.

Lemma has_id_with_quantity k item q : has_id k (with_quantity item q) = has_id k item.
Proof. reflexivity. Qed.

Lemma in_ids item cart : In item cart -> In (line_id item) (ids cart).
Proof. apply in_map. Qed.

Lemma ids_app cart1 cart2 : ids (cart1 ++ cart2) = ids cart1 ++ ids cart2.
Proof. apply map_app. Qed.

(** *** The handlers as updates *)

Lemma increaseQuantity_update k cart :
  CartScreen.increaseQuantity k cart = update k (fun q => q + 1) cart.
Proof. reflexivity. Qed.

Lemma clamp_update k cart :
  CartScreen.decreaseQuantity k cart = update k clamped cart.
Proof. reflexivity. Qed.

Lemma remove_at_zero_update k cart :
  ShoppingScreen.decreaseQuantity k cart
  = filter (fun item => 0 <? quantity item) (update k (fun q => q - 1) cart).
Proof. reflexivity. Qed.

Lemma addToCart_found a cart :
  In (identity a) (ids cart) ->
  ShoppingScreen.addToCart a cart = update (identity a) (fun q => q + 1) cart.
Proof.
  intros Hin. unfold ShoppingScreen.addToCart.
  destruct (find (has_id (identity a)) cart) eqn:Hfind; [reflexivity|].
  exfalso. apply in_map_iff in Hin as (item & Hid & Hitem).
  pose proof (find_none _ _ Hfind _ Hitem) as Hno.
  apply has_id_false in Hno. contradiction.
Qed.

Lemma addToCart_new a cart :
  ~ In (identity a) (ids cart) ->
  ShoppingScreen.addToCart a cart = cart ++ [mkCartItem a 1].
Proof.
  intros Hnot. unfold ShoppingScreen.addToCart.
  destruct (find (has_id (identity a)) cart) as [existing|] eqn:Hfind; [|reflexivity].
  exfalso. apply find_some in Hfind as [Hitem Hid].
  apply has_id_true in Hid. apply Hnot. rewrite <- Hid. apply in_ids, Hitem.
Qed.

(** *** Updates *)

Lemma ids_update k f cart : ids (update k f cart) = ids cart.
Proof.
  unfold update, ids. rewrite map_map. apply map_ext.
  intros item. destruct (has_id k item); reflexivity.
Qed.

Lemma update_absent k f cart : ~ In k (ids cart) -> update k f cart = cart.
Proof.
  induction cart as [|item cart IH]; simpl; intros Hnot.
  - reflexivity.
  - rewrite IH by tauto.
    destruct (has_id k item) eqn:Hk; [|reflexivity].
    apply has_id_true in Hk. tauto.
Qed.

Lemma update_app k f cart1 cart2 :
  update k f (cart1 ++ cart2) = update k f cart1 ++ update k f cart2.
Proof. apply map_app. Qed.

Lemma update_at k f cart1 item cart2 :
  line_id item = k -> ~ In k (ids cart1) -> ~ In k (ids cart2) ->
  update k f (cart1 ++ item :: cart2)
  = cart1 ++ with_quantity item (f (quantity item)) :: cart2.
Proof.
  intros Hid H1 H2. rewrite update_app, (update_absent _ _ cart1) by exact H1.
  simpl. rewrite (proj2 (has_id_true k item) Hid).
  fold (update k f cart2). rewrite update_absent by exact H2. reflexivity.
Qed.

(** *** Filters *)

Lemma ids_filter_incl (keep : CartItem Product -> bool) cart k :
  In k (ids (filter keep cart)) -> In k (ids cart).
Proof.
  intros Hin. apply in_map_iff in Hin as (item & Hid & Hitem).
  apply filter_In in Hitem as [Hitem _]. rewrite <- Hid. apply in_ids, Hitem.
Qed.

Lemma NoDup_ids_filter (keep : CartItem Product -> bool) cart :
  NoDup (ids cart) -> NoDup (ids (filter keep cart)).
Proof.
  induction cart as [|item cart IH]; simpl; intros Hnd.
  - constructor.
  - inversion Hnd as [|? ? Hnotin Hrest]; subst.
    destruct (keep item); simpl.
    + constructor; [|apply IH, Hrest].
      intros Hin. apply Hnotin. eapply ids_filter_incl, Hin.
    + apply IH, Hrest.
Qed.

Lemma filter_all (keep : CartItem Product -> bool) cart :
  Forall (fun item => keep item = true) cart -> filter keep cart = cart.
Proof.
  induction 1 as [|item cart Hk _ IH]; simpl.
  - reflexivity.
  - rewrite Hk, IH. reflexivity.
Qed.

Lemma filter_none (keep : CartItem Product -> bool) cart :
  Forall (fun item => keep item = false) cart -> filter keep cart = [].
Proof.
  induction 1 as [|item cart Hk _ IH]; simpl.
  - reflexivity.
  - rewrite Hk, IH. reflexivity.
Qed.

Lemma absent_all_other k cart :
  ~ In k (ids cart) -> Forall (fun item => negb (has_id k item) = true) cart.
Proof.
  intros Hnot. apply Forall_forall. intros item Hitem.
  apply negb_true_iff, has_id_false. intros Hid.
  apply Hnot. rewrite <- Hid. apply in_ids, Hitem.
Qed.

Lemma remove_absent k cart :
  ~ In k (ids cart) -> ShoppingScreen.removeFromCart k cart = cart.
Proof. intros Hnot. apply filter_all, absent_all_other, Hnot. Qed.

Lemma removeItem_removeFromCart k cart :
  CartScreen.removeItem k cart = ShoppingScreen.removeFromCart k cart.
Proof. reflexivity. Qed.

Lemma remove_at k cart1 item cart2 :
  line_id item = k -> ~ In k (ids cart1) -> ~ In k (ids cart2) ->
  ShoppingScreen.removeFromCart k (cart1 ++ item :: cart2) = cart1 ++ cart2.
Proof.
  intros Hid H1 H2. unfold ShoppingScreen.removeFromCart.
  rewrite filter_app. simpl.
  rewrite (proj2 (has_id_true k item) Hid). simpl.
  rewrite !filter_all by (apply absent_all_other; assumption). reflexivity.
Qed.

Lemma positive_kept cart :
  quantities_from 1 cart -> filter (fun item => 0 <? quantity item) cart = cart.
Proof.
  intros Hq. apply filter_all. eapply Forall_impl; [|exact Hq].
  intros item Hle. simpl in *. apply Z.ltb_lt. lia.
Qed.

Lemma filter_positive_quantities cart :
  quantities_from 1 (filter (fun item => 0 <? quantity item) cart).
Proof.
  apply Forall_forall. intros item Hitem.
  apply filter_In in Hitem as [_ Hpos]. apply Z.ltb_lt in Hpos. lia.
Qed.

(** With unique identities a line is determined by its identity, and the
    cart splits around it. *)
Lemma split_at_id cart item :
  unique_ids cart -> In item cart ->
  exists cart1 cart2,
    cart = cart1 ++ item :: cart2
    /\ ~ In (line_id item) (ids cart1) /\ ~ In (line_id item) (ids cart2).
Proof.
  intros Hnd Hin. apply in_split in Hin as (cart1 & cart2 & ->).
  exists cart1, cart2. split; [reflexivity|].
  unfold unique_ids in Hnd. rewrite ids_app in Hnd. simpl in Hnd.
  apply NoDup_remove_2 in Hnd. rewrite in_app_iff in Hnd. tauto.
Qed.

Lemma split_unique cart1 item cart2 :
  unique_ids (cart1 ++ item :: cart2) ->
  ~ In (line_id item) (ids cart1) /\ ~ In (line_id item) (ids cart2).
Proof.
  intros Hnd. unfold unique_ids in Hnd. rewrite ids_app in Hnd. simpl in Hnd.
  apply NoDup_remove_2 in Hnd. rewrite in_app_iff in Hnd. tauto.
Qed.
End CartFacts.

(** ** The invariants are kept by every operation *)

Section Invariants.
Context {Product Id : Type} `{Catalog Product Id}.
Implicit Types (cart : Cart Product) (k : Id) (op : Operation Product Id).

Lemma unique_ids_update k f cart : unique_ids cart -> unique_ids (update k f cart).
Proof. unfold unique_ids. rewrite ids_update. trivial. Qed.

Lemma quantities_update k f cart :
  (forall q, 1 <= q -> 1 <= f q) ->
  quantities_from 1 cart -> quantities_from 1 (update k f cart).
Proof.
  intros Hf Hq. unfold quantities_from, update. apply Forall_map.
  eapply Forall_impl; [|exact Hq]. intros item Hle. simpl in *.
  destruct (has_id k item); simpl; auto.
Qed.

Lemma clamped_floor q : 1 <= clamped q.
Proof. unfold clamped. destruct (0 <? q - 1) eqn:E; [apply Z.ltb_lt in E|]; lia. Qed.

(** The clamp is the specification's [max(floor, quantity - 1)] at floor 1. *)
Lemma clamped_max q : clamped q = Z.max 1 (q - 1).
Proof.
  unfold clamped. destruct (0 <? q - 1) eqn:E;
    [apply Z.ltb_lt in E | apply Z.ltb_ge in E]; lia.
Qed.

Lemma addToCart_unique a cart :
  unique_ids cart -> unique_ids (ShoppingScreen.addToCart a cart).
Proof.
  intros Hnd. destruct (in_dec Id_eq_dec (identity a) (ids cart)) as [Hin|Hnot].
  - rewrite addToCart_found by exact Hin. apply unique_ids_update, Hnd.
  - rewrite addToCart_new by exact Hnot. unfold unique_ids.
    rewrite ids_app. simpl. apply NoDup_app.
    + exact Hnd.
    + constructor; [simpl; tauto | constructor].
    + intros x Hx [<-|[]]. exact (Hnot Hx).
Qed.

Lemma addToCart_quantities a cart :
  quantities_from 1 cart -> quantities_from 1 (ShoppingScreen.addToCart a cart).
Proof.
  intros Hq. destruct (in_dec Id_eq_dec (identity a) (ids cart)) as [Hin|Hnot].
  - rewrite addToCart_found by exact Hin.
    apply quantities_update; [intros; lia | exact Hq].
  - rewrite addToCart_new by exact Hnot. apply Forall_app. split; [exact Hq|].
    constructor; [simpl; lia | constructor].
Qed.

Lemma apply_unique op cart : unique_ids cart -> unique_ids (apply op cart).
Proof.
  intros Hnd. destruct op as [a|k|[|] k|k]; simpl;
    unfold addOrIncrement, increment, decrement, remove.
  - apply addToCart_unique, Hnd.
  - rewrite increaseQuantity_update. apply unique_ids_update, Hnd.
  - rewrite clamp_update. apply unique_ids_update, Hnd.
  - rewrite remove_at_zero_update.
    apply NoDup_ids_filter. apply unique_ids_update, Hnd.
  - apply NoDup_ids_filter, Hnd.
Qed.

Lemma apply_quantities op cart :
  quantities_from 1 cart -> quantities_from 1 (apply op cart).
Proof.
  intros Hq. destruct op as [a|k|[|] k|k]; simpl;
    unfold addOrIncrement, increment, decrement, remove.
  - apply addToCart_quantities, Hq.
  - rewrite increaseQuantity_update.
    apply quantities_update; [intros; lia | exact Hq].
  - rewrite clamp_update.
    apply quantities_update; [intros; apply clamped_floor | exact Hq].
  - apply filter_positive_quantities.
  - apply Forall_forall. intros item Hitem.
    apply filter_In in Hitem as [Hitem _].
    revert item Hitem. apply Forall_forall, Hq.
Qed.

Lemma run_unique ops cart : unique_ids cart -> unique_ids (run ops cart).
Proof.
  revert cart. induction ops as [|op ops IH]; intros cart Hnd; simpl.
  - exact Hnd.
  - apply IH, apply_unique, Hnd.
Qed.

Lemma run_quantities ops cart :
  quantities_from 1 cart -> quantities_from 1 (run ops cart).
Proof.
  revert cart. induction ops as [|op ops IH]; intros cart Hq; simpl.
  - exact Hq.
  - apply IH, apply_quantities, Hq.
Qed.
End Invariants.

(** The cart [CartScreen] starts from satisfies both invariants, so they
    hold in every state of that screen as well. *)
Lemma initialCartItems_invariants (ops : list (Operation CartScreen.Entry string)) :
  unique_ids (run ops CartScreen.initialCartItems)
  /\ quantities_from 1 (run ops CartScreen.initialCartItems).
Proof.
  split.
  - apply run_unique. unfold unique_ids. simpl.
    repeat constructor; simpl; intuition discriminate.
  - apply run_quantities. repeat constructor; simpl; lia.
Qed.

(** ** Totals *)

Section TotalsFacts.
Context {Product Id : Type} `{Catalog Product Id}.

Lemma totalAmount_sigma (cart : Cart Product) :
  CartScreen.totalAmount cart = sum_of_amounts cart.
Proof.
  unfold CartScreen.totalAmount, sum_of_amounts.
  rewrite (reduce_is_sigma 0%float PrimFloat.add
             (fun item => (price (product item) * number_of_Z (quantity item))%float)
             0%float).
  reflexivity.
Qed.

Lemma totalCartItems_sigma (cart : Cart Product) :
  ShoppingScreen.totalCartItems cart = sum_of_quantities cart.
Proof.
  unfold ShoppingScreen.totalCartItems, sum_of_quantities.
  rewrite (reduce_is_sigma 0 Z.add quantity 0). reflexivity.
Qed.

(** C1. After any sequence of operations from the empty cart, the total
    amount is the sum over the lines of price times quantity, the total
    quantity is the sum of the quantities, and the render pass that computes
    them leaves the cart as it was. *)
Theorem totals_are_sums (ops : list (Operation Product Id)) :
  let cart := run ops [] in
  totalAmount (computeTotals cart) = sum_of_amounts cart
  /\ totalQuantity (computeTotals cart) = sum_of_quantities cart
  /\ fst (render cart) = computeTotals cart
  /\ snd (render cart) = cart.
Proof.
  intros cart. simpl. repeat split.
  - apply totalAmount_sigma.
  - apply totalCartItems_sigma.
Qed.

(** C7. Removing any identity from the empty cart gives the empty cart,
    whose totals are no line, quantity 0 and amount 0.0. *)
Theorem remove_on_empty (k : Id) :
  remove k [] = ([] : Cart Product)
  /\ CartScreen.removeItem k [] = ([] : Cart Product)
  /\ computeTotals (remove k ([] : Cart Product)) = mkTotals 0 0 0%float.
Proof. repeat split. Qed.
End TotalsFacts.

(** ** Reachable carts *)

Section Reachable.
Context {Product Id : Type} `{Catalog Product Id}.

(** C2. No two lines of a cart reached from the empty cart share an
    identity. *)
Theorem identities_unique (ops : list (Operation Product Id)) :
  NoDup (map line_id (run ops [])).
Proof. apply (run_unique ops []). constructor. Qed.

(** C9. Every line of a cart reached from the empty cart has quantity at
    least 1, whichever floor policy the decrements used. *)
Theorem quantities_at_least_one (ops : list (Operation Product Id)) :
  Forall (fun item => 1 <= quantity item) (run ops []).
Proof. apply (run_quantities ops []). constructor. Qed.
End Reachable.

(** ** Adding *)

Section Adding.
Context {Product Id : Type} `{Catalog Product Id}.

Lemma has_id_own (a : Product) (q : Z) : has_id (identity a) (mkCartItem a q) = true.
Proof. apply has_id_true. reflexivity. Qed.

(** C3. Adding an item twice to a cart that has no line for it leaves
    exactly one line of that identity, with quantity 2; it is the line
    appended at the end of the cart. *)
Theorem add_twice (a : Product) (cart : Cart Product) :
  ~ In (identity a) (ids cart) ->
  let cart2 := addOrIncrement a (addOrIncrement a cart) in
  filter (has_id (identity a)) cart2 = [mkCartItem a 2]
  /\ cart2 = cart ++ [mkCartItem a 2].
Proof.
  intros Hnot cart2.
  assert (Hcart2 : cart2 = cart ++ [mkCartItem a 2]).
  { unfold cart2, addOrIncrement.
    rewrite (addToCart_new a cart) by exact Hnot.
    rewrite addToCart_found
      by (rewrite ids_app, in_app_iff; right; simpl; left; reflexivity).
    rewrite update_at; [reflexivity | reflexivity | exact Hnot | simpl; tauto]. }
  split; [|exact Hcart2].
  rewrite Hcart2, filter_app. simpl. rewrite has_id_own.
  rewrite filter_none; [reflexivity|].
  apply Forall_forall. intros item Hitem. apply has_id_false.
  intros Hid. apply Hnot. rewrite <- Hid. apply in_ids, Hitem.
Qed.
End Adding.

(** ** Decrementing *)

Section Decrementing.
Context {Product Id : Type} `{Catalog Product Id}.
Implicit Types (cart : Cart Product) (k : Id).

(** C4. Under the clamp policy a cart holding only a line for [a] at
    quantity 1 is the same cart after any number [n + 1] of decrements of
    [a]: the line stays, at quantity 1. *)
Theorem clamp_at_floor (a : Product) (n : nat) :
  Nat.iter (S n) (decrement Clamp (identity a)) [mkCartItem a 1] = [mkCartItem a 1].
Proof.
  induction n as [|n IH].
  - simpl. unfold CartScreen.decreaseQuantity. simpl.
    rewrite has_id_own. reflexivity.
  - change (Nat.iter (S (S n)) (decrement Clamp (identity a)) [mkCartItem a 1])
      with (decrement Clamp (identity a)
              (Nat.iter (S n) (decrement Clamp (identity a)) [mkCartItem a 1])).
    rewrite IH. simpl. unfold CartScreen.decreaseQuantity. simpl.
    rewrite has_id_own. reflexivity.
Qed.

Lemma remove_at_zero_last k cart item :
  unique_ids cart -> In item cart -> line_id item = k -> quantity item = 1 ->
  ~ In k (ids (ShoppingScreen.decreaseQuantity k cart)).
Proof.
  intros Hnd Hin Hid Hq Hk.
  destruct (split_at_id cart item Hnd Hin) as (cart1 & cart2 & -> & H1 & H2).
  rewrite Hid in H1, H2.
  rewrite remove_at_zero_update, update_at in Hk by assumption.
  rewrite filter_app in Hk. simpl in Hk. rewrite Hq in Hk. simpl in Hk.
  rewrite <- filter_app in Hk. apply ids_filter_incl in Hk.
  rewrite ids_app, in_app_iff in Hk. tauto.
Qed.

Lemma remove_at_zero_again k cart :
  ~ In k (ids (ShoppingScreen.decreaseQuantity k cart)) ->
  ShoppingScreen.decreaseQuantity k (ShoppingScreen.decreaseQuantity k cart)
  = ShoppingScreen.decreaseQuantity k cart.
Proof.
  intros Hnot.
  rewrite (remove_at_zero_update k (ShoppingScreen.decreaseQuantity k cart)).
  rewrite update_absent by exact Hnot.
  apply positive_kept. rewrite remove_at_zero_update.
  apply filter_positive_quantities.
Qed.

(** C5. Under the remove-at-zero policy, in a cart reached from the empty
    cart that has a line for [k] at quantity 1, a decrement of [k] deletes
    the line, and one more decrement of [k] returns the cart it is given. *)
Theorem remove_at_zero_deletes
    (ops : list (Operation Product Id)) (k : Id) (item : CartItem Product) :
  let cart := run ops [] in
  In item cart -> line_id item = k -> quantity item = 1 ->
  let cart' := decrement RemoveAtZero k cart in
  ~ In k (ids cart')
  /\ (forall item', In item' cart' -> line_id item' <> k)
  /\ decrement RemoveAtZero k cart' = cart'.
Proof.
  intros cart Hin Hid Hq cart'.
  assert (Hgone : ~ In k (ids cart')).
  { apply (remove_at_zero_last k cart item); try assumption.
    apply (run_unique ops []). constructor. }
  split; [exact Hgone|]. split.
  - intros item' Hin' Hid'. apply Hgone. rewrite <- Hid'. apply in_ids, Hin'.
  - apply remove_at_zero_again, Hgone.
Qed.

Lemma remove_at_zero_absent k cart :
  quantities_from 1 cart -> ~ In k (ids cart) ->
  ShoppingScreen.decreaseQuantity k cart = cart.
Proof.
  intros Hq Hnot. rewrite remove_at_zero_update, update_absent by exact Hnot.
  apply positive_kept, Hq.
Qed.

(** C6. Every operation is a total function on carts, and on a cart
    reached from the empty cart that has no line for [k], increment,
    decrement (under either policy) and remove of [k] each return the cart
    unchanged. *)
Theorem unknown_identity_noop (ops : list (Operation Product Id)) (k : Id) :
  let cart := run ops [] in
  ~ In k (ids cart) ->
  increment k cart = cart
  /\ decrement Clamp k cart = cart
  /\ decrement RemoveAtZero k cart = cart
  /\ remove k cart = cart
  /\ CartScreen.removeItem k cart = cart.
Proof.
  intros cart Hnot. repeat split.
  - unfold increment. rewrite increaseQuantity_update. apply update_absent, Hnot.
  - simpl. rewrite clamp_update. apply update_absent, Hnot.
  - simpl. apply remove_at_zero_absent; [|exact Hnot].
    apply (run_quantities ops []). constructor.
  - apply remove_absent, Hnot.
  - rewrite removeItem_removeFromCart. apply remove_absent, Hnot.
Qed.
End Decrementing.

(** ** Frame *)

Section Frame.
Context {Product Id : Type} `{Catalog Product Id}.
Implicit Types (cart : Cart Product) (k : Id).

Lemma others_of_update k f cart :
  filter (fun item => negb (has_id k item)) (update k f cart)
  = filter (fun item => negb (has_id k item)) cart.
Proof.
  induction cart as [|item cart IH]; simpl.
  - reflexivity.
  - fold (update k f cart). destruct (has_id k item) eqn:Hk.
    + rewrite has_id_with_quantity, Hk. simpl. exact IH.
    + rewrite Hk. simpl. rewrite IH. reflexivity.
Qed.

Lemma filter_comm (p q : CartItem Product -> bool) cart :
  filter p (filter q cart) = filter q (filter p cart).
Proof.
  induction cart as [|item cart IH]; simpl.
  - reflexivity.
  - destruct (p item) eqn:Hp, (q item) eqn:Hq; simpl;
      rewrite ?Hp, ?Hq, IH; reflexivity.
Qed.

Lemma filter_twice (p : CartItem Product -> bool) cart :
  filter p (filter p cart) = filter p cart.
Proof.
  apply filter_all, Forall_forall. intros item Hitem.
  apply filter_In in Hitem. tauto.
Qed.

Lemma framed_update k f cart :
  unique_ids cart -> framed k cart (update k f cart).
Proof.
  intros Hnd. split; [apply others_of_update|]. split.
  - intros cart1 item cart2 -> Hid.
    destruct (split_unique _ _ _ Hnd) as [H1 H2]. rewrite Hid in H1, H2.
    exists [with_quantity item (f (quantity item))].
    rewrite update_at by assumption.
    repeat split; simpl; [lia | repeat constructor].
  - apply update_absent.
Qed.

Lemma framed_remove_at_zero k cart :
  unique_ids cart -> quantities_from 1 cart ->
  framed k cart (ShoppingScreen.decreaseQuantity k cart).
Proof.
  intros Hnd Hq. rewrite remove_at_zero_update. split; [|split].
  - rewrite filter_comm, others_of_update, filter_comm.
    rewrite positive_kept by exact Hq. reflexivity.
  - intros cart1 item cart2 -> Hid.
    destruct (split_unique _ _ _ Hnd) as [H1 H2]. rewrite Hid in H1, H2.
    apply Forall_app in Hq as [Hq1 Hq2]. apply Forall_cons_iff in Hq2 as [_ Hq2].
    rewrite update_at by assumption.
    exists (filter (fun item' => 0 <? quantity item')
              [with_quantity item (quantity item - 1)]).
    rewrite filter_app. rewrite (positive_kept cart1) by exact Hq1.
    change (with_quantity item (quantity item - 1) :: cart2)
      with ([with_quantity item (quantity item - 1)] ++ cart2).
    rewrite filter_app. rewrite (positive_kept cart2) by exact Hq2.
    split; [reflexivity|]. simpl.
    destruct (0 <? quantity item - 1); simpl; split;
      first [lia | repeat constructor].
  - intros Hnot. rewrite update_absent by exact Hnot.
    apply positive_kept, Hq.
Qed.

Lemma framed_remove k cart :
  unique_ids cart -> framed k cart (ShoppingScreen.removeFromCart k cart).
Proof.
  intros Hnd. split; [apply filter_twice|]. split.
  - intros cart1 item cart2 -> Hid.
    destruct (split_unique _ _ _ Hnd) as [H1 H2]. rewrite Hid in H1, H2.
    exists []. rewrite remove_at by assumption.
    repeat split; simpl; [lia | constructor].
  - apply remove_absent.
Qed.

(** C10. On a cart with unique identities and quantities of at least 1,
    a decrement of [k] under either policy and a removal of [k] by either
    screen keep every line of another identity as it is and in its place;
    only the one line of identity [k] is changed or dropped. *)
Theorem decrement_remove_frame (cart : Cart Product) (k : Id) :
  unique_ids cart -> quantities_from 1 cart ->
  framed k cart (decrement Clamp k cart)
  /\ framed k cart (decrement RemoveAtZero k cart)
  /\ framed k cart (remove k cart)
  /\ framed k cart (CartScreen.removeItem k cart).
Proof.
  intros Hnd Hq. split; [|split; [|split]].
  - simpl. rewrite clamp_update. apply framed_update, Hnd.
  - apply framed_remove_at_zero; assumption.
  - apply framed_remove, Hnd.
  - rewrite removeItem_removeFromCart. apply framed_remove, Hnd.
Qed.
End Frame.

(** ** The scenario of the specification *)

Section Scenario.
Import ShopData.

(** C8. From the empty cart, with removal at zero: adding an item of id 1
    and price 10.00 gives totals (1, 1, 10.00); adding it again gives
    (1, 2, 20.00); adding an item of id 2 and price 5.50 gives
    (2, 3, 25.50); a decrement of 1 gives (2, 2, 15.50), the line of id 1
    staying at quantity 1; one more decrement of 1 gives (1, 1, 5.50), the
    line of id 1 being gone. *)
Theorem scenario (p1 p2 : Product) :
  id p1 = 1 -> product_price p1 = 10%float ->
  id p2 = 2 -> product_price p2 = 5.5%float ->
  let c1 := addOrIncrement p1 [] in
  let c2 := addOrIncrement p1 c1 in
  let c3 := addOrIncrement p2 c2 in
  let c4 := decrement RemoveAtZero 1 c3 in
  let c5 := decrement RemoveAtZero 1 c4 in
  computeTotals c1 = mkTotals 1 1 10%float
  /\ computeTotals c2 = mkTotals 1 2 20%float
  /\ computeTotals c3 = mkTotals 2 3 25.5%float
  /\ (computeTotals c4 = mkTotals 2 2 15.5%float
      /\ ShoppingScreen.getCartItem c4 1 = Some (mkCartItem p1 1))
  /\ (computeTotals c5 = mkTotals 1 1 5.5%float
      /\ ShoppingScreen.getCartItem c5 1 = None
      /\ c5 = [mkCartItem p2 1]).
Proof.
  destruct p1 as [i1 t1 pr1 ca1 im1 r1], p2 as [i2 t2 pr2 ca2 im2 r2].
  simpl. intros -> -> -> ->. vm_compute. repeat split.
Qed.

Lemma scenario_witness :
  let c1 := addOrIncrement item1 [] in
  let c2 := addOrIncrement item1 c1 in
  let c3 := addOrIncrement item2 c2 in
  let c4 := decrement RemoveAtZero 1 c3 in
  let c5 := decrement RemoveAtZero 1 c4 in
  computeTotals c1 = mkTotals 1 1 10%float
  /\ computeTotals c2 = mkTotals 1 2 20%float
  /\ computeTotals c3 = mkTotals 2 3 25.5%float
  /\ (computeTotals c4 = mkTotals 2 2 15.5%float
      /\ ShoppingScreen.getCartItem c4 1 = Some (mkCartItem item1 1))
  /\ (computeTotals c5 = mkTotals 1 1 5.5%float
      /\ ShoppingScreen.getCartItem c5 1 = None
      /\ c5 = [mkCartItem item2 1]).
Proof. apply (scenario item1 item2); reflexivity. Defined.

Lemma add_twice_witness :
  ~ In (identity item1) (ids ([] : Cart Product))
  /\ (let cart2 := addOrIncrement item1 (addOrIncrement item1 []) in
      filter (has_id (identity item1)) cart2 = [mkCartItem item1 2]
      /\ cart2 = [] ++ [mkCartItem item1 2]).
Proof.
  split.
  - simpl. tauto.
  - apply (add_twice item1 []). simpl. tauto.
Defined.

Lemma remove_at_zero_deletes_witness :
  let cart := run [AddOrIncrement item1; AddOrIncrement item2] [] in
  let cart' := decrement RemoveAtZero 1 cart in
  In (mkCartItem item1 1) cart
  /\ ~ In 1 (ids cart')
  /\ (forall item', In item' cart' -> line_id item' <> 1)
  /\ decrement RemoveAtZero 1 cart' = cart'.
Proof.
  split.
  - vm_compute. left. reflexivity.
  - apply (remove_at_zero_deletes
             [AddOrIncrement item1; AddOrIncrement item2] 1 (mkCartItem item1 1)).
    + vm_compute. left. reflexivity.
    + reflexivity.
    + reflexivity.
Defined.

Lemma unknown_identity_noop_witness :
  let cart := run [AddOrIncrement item1] [] in
  ~ In 2 (ids cart)
  /\ increment 2 cart = cart
  /\ decrement Clamp 2 cart = cart
  /\ decrement RemoveAtZero 2 cart = cart
  /\ remove 2 cart = cart
  /\ CartScreen.removeItem 2 cart = cart.
Proof.
  assert (Habsent : ~ In 2 (ids (run [AddOrIncrement item1] []))).
  { vm_compute. intros [E|[]]. discriminate E. }
  split.
  - exact Habsent.
  - apply (unknown_identity_noop [AddOrIncrement item1] 2 Habsent).
Defined.

Lemma decrement_remove_frame_witness :
  let cart := [mkCartItem item1 2; mkCartItem item2 1] in
  unique_ids cart /\ quantities_from 1 cart
  /\ framed 1 cart (decrement Clamp 1 cart)
  /\ framed 1 cart (decrement RemoveAtZero 1 cart)
  /\ framed 1 cart (remove 1 cart)
  /\ framed 1 cart (CartScreen.removeItem 1 cart).
Proof.
  assert (Hnd : unique_ids [mkCartItem item1 2; mkCartItem item2 1]).
  { unfold unique_ids. simpl. repeat constructor; simpl; intuition discriminate. }
  assert (Hq : quantities_from 1 [mkCartItem item1 2; mkCartItem item2 1]).
  { repeat constructor; simpl; lia. }
  split; [exact Hnd|]. split; [exact Hq|].
  apply (decrement_remove_frame [mkCartItem item1 2; mkCartItem item2 1] 1 Hnd Hq).
Defined.
End Scenario.

(** ** Evaluations *)

Section Evaluations.
Import ShopData.

Example initial_total :
  computeTotals CartScreen.initialCartItems = mkTotals 3 3 293.94%float.
Proof. vm_compute. reflexivity. Qed.

Example cart_screen_session :
  computeTotals
    (run [Increment "2"%string; Decrement Clamp "1"%string; Remove "3"%string]
         CartScreen.initialCartItems)
  = mkTotals 2 3 141.93000000000001%float.
Proof. vm_compute. reflexivity. Qed.

(** Amounts are sums of doubles: three times 0.1 is not 0.3. *)
Example amount_is_a_double :
  CartScreen.totalAmount [mkCartItem (mkProduct 7 "" 0.1 "" "" (mkRating 0 0)) 3]
  <> 0.3%float.
Proof. vm_compute. intros E. discriminate E. Qed.

(** Outside the invariants the removal at zero does more than its name
    says, since its [filter] runs over every line: a line already at
    quantity 0 goes away on a decrement of another identity, and of two
    lines with one identity both are decremented. *)
Example remove_at_zero_sweeps :
  decrement RemoveAtZero 2 [mkCartItem item1 0] = [].
Proof. reflexivity. Qed.

Example remove_at_zero_on_duplicates :
  decrement RemoveAtZero 1 [mkCartItem item1 1; mkCartItem item1 5]
  = [mkCartItem item1 4].
Proof. reflexivity. Qed.
End Evaluations.

(** * Further properties of the screens *)

(** ** Looking a line up *)

Section Lookup.
Context {Product Id : Type} `{Catalog Product Id}.
Implicit Types (cart : Cart Product) (k : Id) (item : CartItem Product).

Lemma find_app_cart (p : CartItem Product -> bool) cart1 cart2 :
  find p (cart1 ++ cart2)
  = match find p cart1 with Some item => Some item | None => find p cart2 end.
Proof.
  induction cart1 as [|item cart1 IH]; simpl.
  - reflexivity.
  - destruct (p item); [reflexivity | exact IH].
Qed.

Lemma find_absent k cart : ~ In k (ids cart) -> find (has_id k) cart = None.
Proof.
  intros Hnot. destruct (find (has_id k) cart) as [item|] eqn:Hfind; [|reflexivity].
  exfalso. apply find_some in Hfind as [Hin Hid]. apply has_id_true in Hid.
  apply Hnot. rewrite <- Hid. apply in_ids, Hin.
Qed.

Lemma find_present k cart : In k (ids cart) -> exists item, find (has_id k) cart = Some item.
Proof.
  intros Hin. destruct (find (has_id k) cart) as [item|] eqn:Hfind; [eauto|].
  exfalso. apply in_map_iff in Hin as (item & Hid & Hitem).
  pose proof (find_none _ _ Hfind _ Hitem) as Hno.
  apply has_id_false in Hno. contradiction.
Qed.


Lemma find_update k k' f cart :
  find (has_id k) (update k' f cart)
  = option_map
      (fun item => if has_id k' item then with_quantity item (f (quantity item)) else item)
      (find (has_id k) cart).
Proof.
  induction cart as [|item cart IH]; simpl.
  - reflexivity.
  - fold (update k' f cart).
    assert (Hsame : has_id k (if has_id k' item
                              then with_quantity item (f (quantity item))
                              else item) = has_id k item).
    { destruct (has_id k' item); reflexivity. }
    rewrite Hsame. destruct (has_id k item); [reflexivity | exact IH].
Qed.

Lemma find_other_update k k' f cart :
  k <> k' -> find (has_id k) (update k' f cart) = find (has_id k) cart.
Proof.
  intros Hne. rewrite find_update.
  destruct (find (has_id k) cart) as [item|] eqn:Hfind; [|reflexivity].
  apply find_some in Hfind as [_ Hid]. apply has_id_true in Hid. simpl.
  destruct (has_id k' item) eqn:Hk'; [|reflexivity].
  apply has_id_true in Hk'. congruence.
Qed.

Lemma find_filter_kept (p keep : CartItem Product -> bool) cart :
  (forall item, In item cart -> p item = true -> keep item = true) ->
  find p (filter keep cart) = find p cart.
Proof.
  induction cart as [|item cart IH]; simpl; intros Hkeep.
  - reflexivity.
  - destruct (p item) eqn:Hp.
    + rewrite (Hkeep item) by auto. simpl. rewrite Hp. reflexivity.
    + destruct (keep item); simpl; rewrite ?Hp; apply IH; auto.
Qed.

Lemma find_filter_dropped (p keep : CartItem Product -> bool) cart :
  (forall item, In item cart -> p item = true -> keep item = false) ->
  find p (filter keep cart) = None.
Proof.
  intros Hdrop. destruct (find p (filter keep cart)) as [item|] eqn:Hfind; [|reflexivity].
  apply find_some in Hfind as [Hin Hp]. apply filter_In in Hin as [Hin Hkeep].
  rewrite (Hdrop item Hin Hp) in Hkeep. discriminate.
Qed.


(** X2. After [addToCart] of a product the lookup of its identity gives
    the line found before with one more in quantity, or a new line of the
    product at quantity 1; the lookup of any other identity is unchanged. *)
Theorem getCartItem_addToCart (a : Product) cart :
  ShoppingScreen.getCartItem (ShoppingScreen.addToCart a cart) (identity a)
  = Some match ShoppingScreen.getCartItem cart (identity a) with
         | Some item => with_quantity item (quantity item + 1)
         | None => mkCartItem a 1
         end
  /\ (forall k, k <> identity a ->
        ShoppingScreen.getCartItem (ShoppingScreen.addToCart a cart) k
        = ShoppingScreen.getCartItem cart k).
Proof.
  unfold ShoppingScreen.getCartItem.
  destruct (in_dec Id_eq_dec (identity a) (ids cart)) as [Hin|Hnot].
  - rewrite addToCart_found by exact Hin. split.
    + rewrite find_update.
      destruct (find (has_id (identity a)) cart) as [item|] eqn:Hfind.
      * simpl. apply find_some in Hfind as [_ Hid]. rewrite Hid. reflexivity.
      * apply find_present in Hin as [item Hsome]. congruence.
    + intros k Hne. apply find_other_update, Hne.
  - rewrite addToCart_new by exact Hnot. split.
    + rewrite find_app_cart, find_absent by exact Hnot.
      simpl. rewrite has_id_own. reflexivity.
    + intros k Hne. rewrite find_app_cart.
      destruct (find (has_id k) cart); [reflexivity|]. simpl.
      destruct (has_id k (mkCartItem a 1)) eqn:Hk; [|reflexivity].
      apply has_id_true in Hk. unfold line_id in Hk. simpl in Hk. congruence.
Qed.

(** X3. After [removeFromCart] the lookup of the removed identity finds
    nothing, whatever the cart held, and the lookup of any other identity
    is unchanged. *)
Theorem getCartItem_removeFromCart cart k :
  ShoppingScreen.getCartItem (ShoppingScreen.removeFromCart k cart) k = None
  /\ (forall k', k' <> k ->
        ShoppingScreen.getCartItem (ShoppingScreen.removeFromCart k cart) k'
        = ShoppingScreen.getCartItem cart k').
Proof.
  unfold ShoppingScreen.getCartItem, ShoppingScreen.removeFromCart. split.
  - apply find_filter_dropped. intros item _ Hid. rewrite Hid. reflexivity.
  - intros k' Hne. apply find_filter_kept. intros item _ Hid.
    apply negb_true_iff, has_id_false. apply has_id_true in Hid. congruence.
Qed.

(** X4. In a cart with unique identities and quantities of at least 1,
    after [decreaseQuantity] of [ShoppingScreen] the lookup of the
    decremented identity gives the line with one less in quantity, or
    nothing when the line was at quantity 1 or absent; the lookup of any
    other identity is unchanged. *)
Theorem getCartItem_decreaseQuantity cart k :
  unique_ids cart -> quantities_from 1 cart ->
  ShoppingScreen.getCartItem (ShoppingScreen.decreaseQuantity k cart) k
  = match ShoppingScreen.getCartItem cart k with
    | Some item =>
        if 1 <? quantity item
        then Some (with_quantity item (quantity item - 1))
        else None
    | None => None
    end
  /\ (forall k', k' <> k ->
        ShoppingScreen.getCartItem (ShoppingScreen.decreaseQuantity k cart) k'
        = ShoppingScreen.getCartItem cart k').
Proof.
  intros Hnd Hq. unfold ShoppingScreen.getCartItem.
  rewrite remove_at_zero_update. split.
  - destruct (find (has_id k) cart) as [item|] eqn:Hfind.
    + apply find_some in Hfind as [Hin Hid]. apply has_id_true in Hid.
      destruct (split_at_id cart item Hnd Hin) as (cart1 & cart2 & -> & H1 & H2).
      rewrite Hid in H1, H2. rewrite update_at by assumption.
      apply Forall_app in Hq as [Hq1 _].
      rewrite filter_app, (positive_kept cart1) by exact Hq1.
      rewrite find_app_cart, find_absent by exact H1. simpl.
      destruct (1 <? quantity item) eqn:Hgt.
      * apply Z.ltb_lt in Hgt.
        assert (Hpos : (0 <? quantity item - 1) = true) by (apply Z.ltb_lt; lia).
        rewrite Hpos. simpl.
        rewrite has_id_with_quantity, (proj2 (has_id_true k item) Hid). reflexivity.
      * apply Z.ltb_ge in Hgt.
        assert (Hpos : (0 <? quantity item - 1) = false) by (apply Z.ltb_ge; lia).
        rewrite Hpos. apply find_absent. intros Hin'.
        apply ids_filter_incl in Hin'. contradiction.
    + apply find_absent. intros Hin. apply ids_filter_incl in Hin.
      rewrite ids_update in Hin. apply find_present in Hin as [item Hsome].
      congruence.
  - intros k' Hne. rewrite find_filter_kept.
    + apply find_other_update, Hne.
    + intros item Hin Hid. apply has_id_true in Hid.
      apply in_map_iff in Hin as (item0 & Hitem & Hin0).
      assert (Hq0 : 1 <= quantity item0)
        by (exact (proj1 (Forall_forall _ cart) Hq item0 Hin0)).
      destruct (has_id k item0) eqn:Hk.
      * apply has_id_true in Hk. rewrite <- Hitem in Hid.
        unfold line_id in *. simpl in Hid. congruence.
      * subst item. apply Z.ltb_lt. lia.
Qed.
End Lookup.

(** ** Pressing plus and minus *)

Section PlusMinus.
Context {Product Id : Type} `{Catalog Product Id}.
Implicit Types (cart : Cart Product) (k : Id) (item : CartItem Product).

Lemma update_update k f g cart :
  update k g (update k f cart) = update k (fun q => g (f q)) cart.
Proof.
  unfold update. rewrite map_map. apply map_ext. intros item.
  destruct (has_id k item) eqn:Hk.
  - rewrite has_id_with_quantity, Hk. reflexivity.
  - rewrite Hk. reflexivity.
Qed.

Lemma update_ext k f g cart :
  Forall (fun item => f (quantity item) = g (quantity item)) cart ->
  update k f cart = update k g cart.
Proof.
  intros Hfg. unfold update. apply map_ext_in. intros item Hin.
  rewrite (proj1 (Forall_forall _ cart) Hfg item Hin). reflexivity.
Qed.

Lemma update_same k cart : update k (fun q => q) cart = cart.
Proof.
  unfold update. rewrite <- (map_id cart) at 2. apply map_ext. intros item.
  destruct (has_id k item); [destruct item|]; reflexivity.
Qed.

(** X5. [CartScreen]: on a cart with quantities of at least 1, pressing
    plus and then minus on the same line gives the cart back. *)
Theorem plus_then_minus_clamp k cart :
  quantities_from 1 cart ->
  CartScreen.decreaseQuantity k (CartScreen.increaseQuantity k cart) = cart.
Proof.
  intros Hq. rewrite increaseQuantity_update, clamp_update, update_update.
  rewrite <- (update_same k cart) at 2. apply update_ext.
  eapply Forall_impl; [|exact Hq]. intros item Hle. simpl in Hle.
  rewrite clamped_max. lia.
Qed.

(** X6. [ShoppingScreen]: on a cart with quantities of at least 1,
    [addToCart] of a product followed by [decreaseQuantity] of its
    identity gives the cart back, whether the product was in it or not. *)
Theorem add_then_decrease (a : Product) cart :
  quantities_from 1 cart ->
  ShoppingScreen.decreaseQuantity (identity a) (ShoppingScreen.addToCart a cart) = cart.
Proof.
  intros Hq. rewrite remove_at_zero_update.
  destruct (in_dec Id_eq_dec (identity a) (ids cart)) as [Hin|Hnot].
  - rewrite addToCart_found by exact Hin. rewrite update_update.
    rewrite (update_ext _ _ (fun q => q)) by (apply Forall_forall; intros; lia).
    rewrite update_same. apply positive_kept, Hq.
  - rewrite addToCart_new by exact Hnot.
    rewrite update_at; [|reflexivity | exact Hnot | simpl; tauto].
    rewrite filter_app, positive_kept by exact Hq. simpl. apply app_nil_r.
Qed.

(** *** Repeated decrements *)

Lemma iter_succ {A : Type} (f : A -> A) (n : nat) (x : A) :
  Nat.iter (S n) f x = f (Nat.iter n f x).
Proof. reflexivity. Qed.

(** X7. [CartScreen]: on a cart with quantities of at least 1, [n]
    presses of minus on identity [k] leave every line in place and bring
    the quantity [q] of the lines of identity [k] to [max 1 (q - n)]. *)
Theorem minus_n_times_clamp k cart (n : nat) :
  quantities_from 1 cart ->
  Nat.iter n (CartScreen.decreaseQuantity k) cart
  = update k (fun q => Z.max 1 (q - Z.of_nat n)) cart.
Proof.
  intros Hq. induction n as [|n IH].
  - simpl. rewrite <- (update_same k cart) at 1. apply update_ext.
    eapply Forall_impl; [|exact Hq]. intros item Hle. simpl in Hle. lia.
  - rewrite iter_succ, IH, clamp_update, update_update.
    apply update_ext, Forall_forall. intros item _.
    rewrite clamped_max. lia.
Qed.

Lemma drop_nonpositive k f cart1 item cart2 :
  line_id item = k -> ~ In k (ids cart1) -> ~ In k (ids cart2) ->
  quantities_from 1 cart1 -> quantities_from 1 cart2 ->
  f (quantity item) <= 0 ->
  filter (fun item' => 0 <? quantity item') (update k f (cart1 ++ item :: cart2))
  = cart1 ++ cart2.
Proof.
  intros Hid H1 H2 Hq1 Hq2 Hf. rewrite update_at by assumption.
  rewrite filter_app, positive_kept by exact Hq1. simpl.
  assert (Hneg : (0 <? f (quantity item)) = false) by (apply Z.ltb_ge; exact Hf).
  rewrite Hneg, positive_kept by exact Hq2. reflexivity.
Qed.

(** X8. [ShoppingScreen]: in a cart with unique identities and quantities
    of at least 1 that has a line for [k], [n] presses of minus on [k]
    take [n] off the quantity of that line while [n] is below it, and from
    then on give the cart [removeFromCart] gives: as many presses as the
    quantity remove the line, and further presses change nothing. *)
Theorem minus_n_times_remove k cart item (n : nat) :
  unique_ids cart -> quantities_from 1 cart ->
  ShoppingScreen.getCartItem cart k = Some item ->
  Nat.iter n (ShoppingScreen.decreaseQuantity k) cart
  = if Z.of_nat n <? quantity item
    then update k (fun q => q - Z.of_nat n) cart
    else ShoppingScreen.removeFromCart k cart.
Proof.
  intros Hnd Hq Hfind. apply find_some in Hfind as [Hin Hid].
  apply has_id_true in Hid.
  destruct (split_at_id cart item Hnd Hin) as (cart1 & cart2 & -> & H1 & H2).
  rewrite Hid in H1, H2.
  pose proof Hq as Hq'. apply Forall_app in Hq' as [Hq1 Hq2].
  apply Forall_cons_iff in Hq2 as [Hqi Hq2]. simpl in Hqi.
  induction n as [|n IH].
  - simpl (Z.of_nat 0).
    assert (Hlt : (0 <? quantity item) = true) by (apply Z.ltb_lt; lia).
    rewrite Hlt. simpl. rewrite (update_ext _ _ (fun q => q)).
    + symmetry. apply update_same.
    + apply Forall_forall. intros; lia.
  - rewrite iter_succ, IH. clear IH.
    destruct (Z.of_nat n <? quantity item) eqn:Hn.
    + apply Z.ltb_lt in Hn. rewrite remove_at_zero_update, update_update.
      destruct (Z.of_nat (S n) <? quantity item) eqn:Hsn.
      * apply Z.ltb_lt in Hsn.
        rewrite (update_ext _ _ (fun q => q - Z.of_nat (S n)))
          by (apply Forall_forall; intros; lia).
        apply positive_kept. rewrite update_at by assumption.
        apply Forall_app. split; [exact Hq1|].
        constructor; [simpl; lia | exact Hq2].
      * apply Z.ltb_ge in Hsn. rewrite remove_at by assumption.
        apply drop_nonpositive; try assumption. lia.
    + apply Z.ltb_ge in Hn.
      assert (Hsn : (Z.of_nat (S n) <? quantity item) = false)
        by (apply Z.ltb_ge; lia).
      rewrite Hsn. rewrite remove_at by assumption.
      apply remove_at_zero_absent.
      * apply Forall_app. split; assumption.
      * rewrite ids_app, in_app_iff. tauto.
Qed.
End PlusMinus.

(** ** The count on the badge *)

Section Badge.
Context {Product Id : Type} `{Catalog Product Id}.
Implicit Types (cart : Cart Product) (k : Id) (item : CartItem Product).

Lemma reduce_from (cart : Cart Product) (start : Z) :
  fold_left (fun sum item => sum + quantity item) cart start
  = start + ShoppingScreen.totalCartItems cart.
Proof.
  unfold ShoppingScreen.totalCartItems. revert start.
  induction cart as [|item cart IH]; intros start; simpl.
  - lia.
  - rewrite IH, (IH (quantity item)). lia.
Qed.

Lemma totalCartItems_cons item cart :
  ShoppingScreen.totalCartItems (item :: cart)
  = quantity item + ShoppingScreen.totalCartItems cart.
Proof. unfold ShoppingScreen.totalCartItems at 1. simpl. apply reduce_from. Qed.

Lemma totalCartItems_app cart1 cart2 :
  ShoppingScreen.totalCartItems (cart1 ++ cart2)
  = ShoppingScreen.totalCartItems cart1 + ShoppingScreen.totalCartItems cart2.
Proof.
  unfold ShoppingScreen.totalCartItems at 1. rewrite fold_left_app.
  fold (ShoppingScreen.totalCartItems cart1). apply reduce_from.
Qed.

Lemma quantity_with_quantity item q : quantity (with_quantity item q) = q.
Proof. reflexivity. Qed.

Lemma totalCartItems_at cart1 item cart2 :
  ShoppingScreen.totalCartItems (cart1 ++ item :: cart2)
  = ShoppingScreen.totalCartItems cart1 + quantity item
    + ShoppingScreen.totalCartItems cart2.
Proof. rewrite totalCartItems_app, totalCartItems_cons. lia. Qed.

(** X9. In a cart with unique identities every [addToCart] raises the
    count of the badge by exactly one, whether it adds a line or raises
    the quantity of one. *)
Theorem totalCartItems_addToCart (a : Product) cart :
  unique_ids cart ->
  ShoppingScreen.totalCartItems (ShoppingScreen.addToCart a cart)
  = ShoppingScreen.totalCartItems cart + 1.
Proof.
  intros Hnd. destruct (in_dec Id_eq_dec (identity a) (ids cart)) as [Hin|Hnot].
  - rewrite addToCart_found by exact Hin.
    apply in_map_iff in Hin as (item & Hid & Hin).
    destruct (split_at_id cart item Hnd Hin) as (cart1 & cart2 & -> & H1 & H2).
    rewrite Hid in H1, H2. rewrite update_at by assumption.
    rewrite !totalCartItems_at, quantity_with_quantity. lia.
  - rewrite addToCart_new by exact Hnot.
    rewrite totalCartItems_app. unfold ShoppingScreen.totalCartItems at 2.
    simpl. lia.
Qed.

(** X10. In a cart with unique identities and quantities of at least 1,
    [decreaseQuantity] of [ShoppingScreen] lowers the count of the badge by
    exactly one when the identity has a line (dropped or not), and leaves
    it when it has none. *)
Theorem totalCartItems_decreaseQuantity k cart :
  unique_ids cart -> quantities_from 1 cart ->
  ShoppingScreen.totalCartItems (ShoppingScreen.decreaseQuantity k cart)
  = match ShoppingScreen.getCartItem cart k with
    | Some _ => ShoppingScreen.totalCartItems cart - 1
    | None => ShoppingScreen.totalCartItems cart
    end.
Proof.
  intros Hnd Hq. unfold ShoppingScreen.getCartItem.
  destruct (find (has_id k) cart) as [item|] eqn:Hfind.
  - apply find_some in Hfind as [Hin Hid]. apply has_id_true in Hid.
    destruct (split_at_id cart item Hnd Hin) as (cart1 & cart2 & -> & H1 & H2).
    rewrite Hid in H1, H2.
    apply Forall_app in Hq as [Hq1 Hq2].
    apply Forall_cons_iff in Hq2 as [Hqi Hq2]. simpl in Hqi.
    rewrite remove_at_zero_update, update_at by assumption.
    rewrite filter_app, positive_kept by exact Hq1. simpl.
    rewrite (positive_kept cart2) by exact Hq2.
    destruct (0 <? quantity item - 1) eqn:Hpos.
    + rewrite !totalCartItems_at, ?quantity_with_quantity. lia.
    + apply Z.ltb_ge in Hpos.
      rewrite totalCartItems_app, totalCartItems_at. lia.
  - rewrite remove_at_zero_absent; [reflexivity | exact Hq |].
    intros Hin. apply find_present in Hin as [item Hsome]. congruence.
Qed.

(** X11. In a cart with unique identities [removeFromCart] lowers the
    count of the badge by the quantity of the line it removes, and leaves
    it when the identity has no line. *)
Theorem totalCartItems_removeFromCart k cart :
  unique_ids cart ->
  ShoppingScreen.totalCartItems (ShoppingScreen.removeFromCart k cart)
  = ShoppingScreen.totalCartItems cart
    - match ShoppingScreen.getCartItem cart k with
      | Some item => quantity item
      | None => 0
      end.
Proof.
  intros Hnd. unfold ShoppingScreen.getCartItem.
  destruct (find (has_id k) cart) as [item|] eqn:Hfind.
  - apply find_some in Hfind as [Hin Hid]. apply has_id_true in Hid.
    destruct (split_at_id cart item Hnd Hin) as (cart1 & cart2 & -> & H1 & H2).
    rewrite Hid in H1, H2. rewrite remove_at by assumption.
    rewrite totalCartItems_app, totalCartItems_at. lia.
  - rewrite remove_absent; [lia|].
    intros Hin. apply find_present in Hin as [item Hsome]. congruence.
Qed.

Lemma totalCartItems_lower_bound cart :
  quantities_from 1 cart ->
  Z.of_nat (List.length cart) <= ShoppingScreen.totalCartItems cart.
Proof.
  induction 1 as [|item cart Hle _ IH].
  - unfold ShoppingScreen.totalCartItems. simpl. lia.
  - rewrite totalCartItems_cons. simpl List.length. lia.
Qed.

(** X12. On a cart with quantities of at least 1 the count of the badge is
    at least the number of lines, and the badge is missing exactly when the
    cart is empty. *)
Theorem cartBadge_shown cart :
  quantities_from 1 cart ->
  Z.of_nat (List.length cart) <= ShoppingScreen.totalCartItems cart
  /\ (cartBadge cart = None <-> cart = []).
Proof.
  intros Hq. pose proof (totalCartItems_lower_bound cart Hq) as Hlow.
  split; [exact Hlow|]. unfold cartBadge. split.
  - destruct (0 <? ShoppingScreen.totalCartItems cart) eqn:Hpos; [discriminate|].
    intros _. apply Z.ltb_ge in Hpos.
    destruct cart as [|item cart]; [reflexivity|]. simpl List.length in Hlow. lia.
  - intros ->. reflexivity.
Qed.
End Badge.

(** ** Lines that stay and lines that go *)

Section Lines.
Context {Product Id : Type} `{Catalog Product Id}.
Implicit Types (cart : Cart Product) (k : Id) (item : CartItem Product).

Lemma products_update k f cart : map product (update k f cart) = map product cart.
Proof.
  unfold update. rewrite map_map. apply map_ext.
  intros item. destruct (has_id k item); reflexivity.
Qed.

(** X13. [CartScreen]: plus and minus never add, drop, reorder or replace
    a line: the products of the cart are the same list before and after,
    so neither button can bring up the empty view or disable Payment. *)
Theorem plus_minus_keep_lines k cart :
  map product (CartScreen.increaseQuantity k cart) = map product cart
  /\ map product (CartScreen.decreaseQuantity k cart) = map product cart
  /\ paymentDisabled (CartScreen.increaseQuantity k cart) = paymentDisabled cart
  /\ paymentDisabled (CartScreen.decreaseQuantity k cart) = paymentDisabled cart.
Proof.
  rewrite increaseQuantity_update, clamp_update. unfold paymentDisabled.
  rewrite !products_update. unfold update. rewrite !length_map.
  repeat split.
Qed.

Lemma remove_all_filter (ks : list Id) cart :
  fold_left (fun c k => CartScreen.removeItem k c) ks cart
  = filter (fun item => negb (existsb (fun k => has_id k item) ks)) cart.
Proof.
  revert cart. induction ks as [|k ks IH]; intros cart; simpl.
  - symmetry. apply filter_all, Forall_forall. reflexivity.
  - rewrite IH. unfold CartScreen.removeItem.
    induction cart as [|item cart IHc]; simpl.
    + reflexivity.
    + destruct (has_id k item); simpl; rewrite IHc; reflexivity.
Qed.

(** X14. [CartScreen]: once Remove has been pressed for every identity in
    the cart, in any order and any number of times, the cart is empty and
    Payment is disabled. *)
Theorem remove_all_empties (ks : list Id) cart :
  incl (ids cart) ks ->
  fold_left (fun c k => CartScreen.removeItem k c) ks cart = []
  /\ paymentDisabled (fold_left (fun c k => CartScreen.removeItem k c) ks cart) = true.
Proof.
  intros Hincl.
  assert (Hempty : fold_left (fun c k => CartScreen.removeItem k c) ks cart = []).
  { rewrite remove_all_filter. apply filter_none, Forall_forall.
    intros item Hin. apply negb_false_iff, existsb_exists.
    exists (line_id item). split.
    - apply Hincl, in_ids, Hin.
    - apply has_id_true. reflexivity. }
  rewrite Hempty. split; reflexivity.
Qed.

(** X15. After a removal no line of the removed identity is left, even if
    the cart held several; removing again changes nothing, and removals of
    two identities give the same cart in either order. *)
Theorem removeFromCart_gone k k' cart :
  ~ In k (ids (ShoppingScreen.removeFromCart k cart))
  /\ ShoppingScreen.removeFromCart k (ShoppingScreen.removeFromCart k cart)
     = ShoppingScreen.removeFromCart k cart
  /\ ShoppingScreen.removeFromCart k (ShoppingScreen.removeFromCart k' cart)
     = ShoppingScreen.removeFromCart k' (ShoppingScreen.removeFromCart k cart).
Proof.
  unfold ShoppingScreen.removeFromCart. repeat split.
  - intros Hin. apply in_map_iff in Hin as (item & Hid & Hin).
    apply filter_In in Hin as [_ Hkeep].
    apply negb_true_iff, has_id_false in Hkeep. contradiction.
  - apply filter_twice.
  - apply filter_comm.
Qed.

(** X16. [addToCart] followed by [removeFromCart] of the same identity is
    [removeFromCart] alone; on a cart that had no line of that identity it
    gives the cart back. *)
Theorem add_then_remove (a : Product) cart :
  ShoppingScreen.removeFromCart (identity a) (ShoppingScreen.addToCart a cart)
  = ShoppingScreen.removeFromCart (identity a) cart
  /\ (ShoppingScreen.getCartItem cart (identity a) = None ->
      ShoppingScreen.removeFromCart (identity a) (ShoppingScreen.addToCart a cart)
      = cart).
Proof.
  assert (Hfirst : ShoppingScreen.removeFromCart (identity a)
                     (ShoppingScreen.addToCart a cart)
                   = ShoppingScreen.removeFromCart (identity a) cart).
  { destruct (in_dec Id_eq_dec (identity a) (ids cart)) as [Hin|Hnot].
    - rewrite addToCart_found by exact Hin. apply others_of_update.
    - rewrite addToCart_new by exact Hnot. unfold ShoppingScreen.removeFromCart.
      rewrite filter_app. simpl. rewrite has_id_own. simpl. apply app_nil_r. }
  split; [exact Hfirst|]. intros Hnone. rewrite Hfirst. apply remove_absent.
  intros Hin. apply find_present in Hin as [item Hsome].
  unfold ShoppingScreen.getCartItem in Hnone. congruence.
Qed.

(** X17. In a cart with unique identities [addToCart] and
    [increaseQuantity] change one line at most: a line of the identity
    gets one more in quantity, in place and with the product it had (the
    product passed to [addToCart] is not stored again), every other line is
    untouched, and [addToCart] of an identity without a line appends the
    product at quantity 1. *)
Theorem plus_changes_one_line (a : Product) cart :
  unique_ids cart ->
  (forall cart1 item cart2,
     cart = cart1 ++ item :: cart2 -> line_id item = identity a ->
     ShoppingScreen.addToCart a cart
     = cart1 ++ mkCartItem (product item) (quantity item + 1) :: cart2
     /\ CartScreen.increaseQuantity (identity a) cart
        = cart1 ++ mkCartItem (product item) (quantity item + 1) :: cart2)
  /\ (~ In (identity a) (ids cart) ->
      ShoppingScreen.addToCart a cart = cart ++ [mkCartItem a 1]
      /\ CartScreen.increaseQuantity (identity a) cart = cart).
Proof.
  intros Hnd. split.
  - intros cart1 item cart2 -> Hid.
    destruct (split_unique _ _ _ Hnd) as [H1 H2]. rewrite Hid in H1, H2.
    rewrite addToCart_found
      by (rewrite ids_app, in_app_iff; right; left; exact Hid).
    rewrite increaseQuantity_update, update_at by assumption.
    split; reflexivity.
  - intros Hnot. split.
    + apply addToCart_new, Hnot.
    + rewrite increaseQuantity_update. apply update_absent, Hnot.
Qed.
End Lines.

(** ** Searching the catalog *)

Module SearchFacts.
Import ShopData Search.
Local Open Scope string_scope.

Lemma prefix_append (t s : string) :
  String.prefix t s = true <-> exists rest, s = t ++ rest.
Proof.
  revert s. induction t as [|c t IH]; intros s; simpl.
  - destruct s; simpl; split; eauto.
  - destruct s as [|d s]; simpl.
    + split; [discriminate | intros [rest Hrest]; discriminate].
    + destruct (ascii_dec c d) as [->|Hne].
      * rewrite IH. split; intros [rest Hrest]; exists rest; congruence.
      * split; [discriminate | intros [rest Hrest]; congruence].
Qed.

(** [includes] finds exactly the strings that occur between some
    characters before and some after. *)
Lemma includes_occurs (s t : string) :
  includes s t = true <-> exists before rest, s = before ++ t ++ rest.
Proof.
  induction s as [|c s IH].
  - change (includes "" t) with (String.prefix t "" || false).
    rewrite orb_false_r, prefix_append. split.
    + intros [rest Hrest]. exists "", rest. exact Hrest.
    + intros (before & rest & Hs). destruct before; [eauto | discriminate].
  - change (includes (String c s) t)
      with (String.prefix t (String c s) || includes s t).
    rewrite orb_true_iff, prefix_append, IH. split.
    + intros [[rest Hrest] | (before & rest & Hs)].
      * exists "", rest. exact Hrest.
      * exists (String c before), rest. simpl. congruence.
    + intros (before & rest & Hs). destruct before as [|d before].
      * left. exists rest. exact Hs.
      * right. exists before, rest. simpl in Hs. congruence.
Qed.

Lemma append_assoc (a b c : string) : (a ++ b) ++ c = a ++ (b ++ c).
Proof. induction a as [|x a IH]; simpl; [reflexivity | rewrite IH; reflexivity]. Qed.

Lemma append_empty_r (a : string) : a ++ "" = a.
Proof. induction a as [|x a IH]; simpl; [reflexivity | rewrite IH; reflexivity]. Qed.

Lemma includes_empty (s : string) : includes s "" = true.
Proof. apply includes_occurs. exists "", s. reflexivity. Qed.

Lemma includes_refl (s : string) : includes s s = true.
Proof. apply includes_occurs. exists "", "". simpl. symmetry. apply append_empty_r. Qed.

Lemma includes_trans (s t u : string) :
  includes s t = true -> includes t u = true -> includes s u = true.
Proof.
  rewrite !includes_occurs.
  intros (b1 & r1 & ->) (b2 & r2 & ->).
  exists (b1 ++ b2), (r2 ++ r1). rewrite !append_assoc. reflexivity.
Qed.

Section Filter.
Variable toLowerCase : string -> string.
Variable shopData : list Product.

Lemma filter_within {A : Type} (p r : A -> bool) (xs : list A) :
  (forall x, p x = true -> r x = true) -> filter p (filter r xs) = filter p xs.
Proof.
  intros Hpr. induction xs as [|x xs IH]; simpl.
  - reflexivity.
  - destruct (r x) eqn:Hr; simpl.
    + rewrite IH. reflexivity.
    + destruct (p x) eqn:Hp; [|exact IH].
      rewrite (Hpr x Hp) in Hr. discriminate.
Qed.

(** X18. With an empty search field every product of the catalog is
    listed, in catalog order ([toLowerCase] maps the empty string to
    itself). *)
Theorem empty_query_lists_all :
  toLowerCase "" = "" ->
  filteredProducts toLowerCase shopData "" = shopData.
Proof.
  intros Hlow. unfold filteredProducts.
  induction shopData as [|p ps IH]; simpl.
  - reflexivity.
  - rewrite Hlow, includes_empty. simpl. f_equal.
    rewrite Hlow in IH. exact IH.
Qed.

(** X19. A query whose lower-case form contains the lower-case form of
    another lists only products the other lists, in the same order:
    searching within the results of the shorter query gives the results of
    the longer one. *)
Theorem longer_query_narrows (query longer : string) :
  includes (toLowerCase longer) (toLowerCase query) = true ->
  filteredProducts toLowerCase (filteredProducts toLowerCase shopData query) longer
  = filteredProducts toLowerCase shopData longer
  /\ incl (filteredProducts toLowerCase shopData longer)
          (filteredProducts toLowerCase shopData query).
Proof.
  intros Hinc.
  assert (Hnarrow : forall p,
    includes (toLowerCase (title p)) (toLowerCase longer)
    || includes (toLowerCase (category p)) (toLowerCase longer) = true ->
    includes (toLowerCase (title p)) (toLowerCase query)
    || includes (toLowerCase (category p)) (toLowerCase query) = true).
  { intros p Hp. apply orb_true_iff in Hp. apply orb_true_iff.
    destruct Hp as [Hp|Hp]; [left|right]; eapply includes_trans; eauto. }
  split.
  - unfold filteredProducts. apply filter_within. exact Hnarrow.
  - intros p Hp. unfold filteredProducts in *.
    apply filter_In in Hp as [Hin Hp]. apply filter_In. split; [exact Hin|].
    apply Hnarrow, Hp.
Qed.

(** X20. A product of the catalog is listed when the query is its title
    or its category up to the case of the letters. *)
Theorem found_by_title_or_category (p : Product) (query : string) :
  In p shopData ->
  toLowerCase query = toLowerCase (title p)
  \/ toLowerCase query = toLowerCase (category p) ->
  In p (filteredProducts toLowerCase shopData query).
Proof.
  intros Hin Hq. unfold filteredProducts. apply filter_In. split; [exact Hin|].
  apply orb_true_iff. destruct Hq as [-> | ->]; [left|right]; apply includes_refl.
Qed.
End Filter.
End SearchFacts.

(** ** Expanding questions *)

Module FAQFacts.
Import FAQScreen.
Local Open Scope nat_scope.

Lemma expanded_In (xs : list nat) (i : nat) : expanded xs i = true <-> In i xs.
Proof.
  unfold expanded. rewrite existsb_exists. split.
  - intros (x & Hin & Heq). apply Nat.eqb_eq in Heq. congruence.
  - intros Hin. exists i. split; [exact Hin | apply Nat.eqb_refl].
Qed.

Lemma expanded_false (xs : list nat) (i : nat) : expanded xs i = false <-> ~ In i xs.
Proof.
  rewrite <- expanded_In. destruct (expanded xs i); split; congruence.
Qed.

Lemma In_toggleExpand (i j : nat) (prev : list nat) :
  In j (toggleExpand i prev)
  <-> (j <> i /\ In j prev) \/ (j = i /\ ~ In i prev).
Proof.
  unfold toggleExpand. destruct (expanded prev i) eqn:Hexp.
  - apply expanded_In in Hexp. rewrite filter_In, negb_true_iff, Nat.eqb_neq. tauto.
  - apply expanded_false in Hexp. rewrite in_app_iff. simpl.
    destruct (Nat.eq_dec j i) as [->|Hne]; intuition congruence.
Qed.

(** X21. Pressing a question flips whether it is expanded and leaves
    every other question as it was, also when the list holds an index more
    than once. *)
Theorem toggleExpand_flips (i j : nat) (prev : list nat) :
  expanded (toggleExpand i prev) i = negb (expanded prev i)
  /\ (j <> i -> expanded (toggleExpand i prev) j = expanded prev j).
Proof.
  split.
  - destruct (expanded prev i) eqn:Hexp; simpl.
    + apply expanded_false. rewrite In_toggleExpand. apply expanded_In in Hexp. tauto.
    + apply expanded_In. rewrite In_toggleExpand. apply expanded_false in Hexp. tauto.
  - intros Hne. destruct (expanded prev j) eqn:Hexp.
    + apply expanded_In. rewrite In_toggleExpand. apply expanded_In in Hexp. tauto.
    + apply expanded_false. rewrite In_toggleExpand. apply expanded_false in Hexp. tauto.
Qed.

Lemma toggleExpand_NoDup (i : nat) (prev : list nat) :
  NoDup prev -> NoDup (toggleExpand i prev).
Proof.
  intros Hnd. unfold toggleExpand. destruct (expanded prev i) eqn:Hexp.
  - apply NoDup_filter, Hnd.
  - apply expanded_false in Hexp. apply NoDup_app.
    + exact Hnd.
    + constructor; [simpl; tauto | constructor].
    + intros x Hx [<-|[]]. exact (Hexp Hx).
Qed.

(** X22. Starting from no expanded question, after any sequence of presses
    the list of expanded indexes holds no index twice. *)
Theorem expandedIndexes_NoDup (presses : list nat) :
  NoDup (fold_left (fun prev index => toggleExpand index prev) presses []).
Proof.
  assert (Hgen : forall prev, NoDup prev ->
            NoDup (fold_left (fun prev index => toggleExpand index prev) presses prev)).
  { induction presses as [|i presses IH]; intros prev Hnd; simpl.
    - exact Hnd.
    - apply IH, toggleExpand_NoDup, Hnd. }
  apply Hgen. constructor.
Qed.

(** X23. Pressing a collapsed question twice gives the list of expanded
    indexes back as it was. *)
Theorem toggleExpand_twice (i : nat) (prev : list nat) :
  expanded prev i = false ->
  toggleExpand i (toggleExpand i prev) = prev.
Proof.
  intros Hexp. unfold toggleExpand at 2. rewrite Hexp.
  unfold toggleExpand.
  assert (Hnow : expanded (prev ++ [i]) i = true).
  { apply expanded_In, in_app_iff. right. left. reflexivity. }
  rewrite Hnow, filter_app. simpl. rewrite Nat.eqb_refl. simpl.
  rewrite app_nil_r. clear Hnow. apply expanded_false in Hexp.
  induction prev as [|x prev IH]; simpl.
  - reflexivity.
  - destruct (Nat.eqb_spec x i) as [->|Hne]; simpl.
    + exfalso. apply Hexp. left. reflexivity.
    + rewrite IH; [reflexivity|]. intros Hin. apply Hexp. right. exact Hin.
Qed.
End FAQFacts.

(** ** Whole sessions *)

Section Sessions.
Context {Product Id : Type} `{Catalog Product Id}.
Implicit Types (cart : Cart Product) (op : Operation Product Id).

Lemma products_filter (keep : CartItem Product -> bool) cart :
  incl (map product (filter keep cart)) (map product cart).
Proof.
  intros p Hp. apply in_map_iff in Hp as (item & <- & Hin).
  apply filter_In in Hin as [Hin _]. apply in_map, Hin.
Qed.

Lemma products_apply op cart (p : Product) :
  In p (map product (apply op cart)) ->
  In p (map product cart) \/ op = AddOrIncrement p.
Proof.
  destruct op as [a|k|[|] k|k]; simpl;
    unfold addOrIncrement, increment, decrement, remove.
  - destruct (in_dec Id_eq_dec (identity a) (ids cart)) as [Hin|Hnot].
    + rewrite addToCart_found, products_update by exact Hin. tauto.
    + rewrite addToCart_new, map_app, in_app_iff by exact Hnot. simpl.
      intros [Hp|[<-|[]]]; [left; exact Hp | right; reflexivity].
  - rewrite increaseQuantity_update, products_update. tauto.
  - rewrite clamp_update, products_update. tauto.
  - rewrite remove_at_zero_update. intros Hp.
    apply products_filter in Hp. rewrite products_update in Hp. tauto.
  - intros Hp. apply products_filter in Hp. tauto.
Qed.

Lemma products_run ops cart (p : Product) :
  In p (map product (run ops cart)) ->
  In p (map product cart) \/ In (AddOrIncrement p) ops.
Proof.
  revert cart. induction ops as [|op ops IH]; intros cart Hp; simpl in *.
  - tauto.
  - apply IH in Hp as [Hp|Hp]; [|tauto].
    apply products_apply in Hp as [Hp|Hp]; [tauto|]. right. left. exact Hp.
Qed.

(** X24. A cart reached from the empty cart holds only products that were
    handed to [addToCart] during the session: no operation makes up a line
    or puts another product into one. *)
Theorem lines_were_added (ops : list (Operation Product Id)) (item : CartItem Product) :
  In item (run ops []) -> In (AddOrIncrement (product item)) ops.
Proof.
  intros Hin. apply (in_map product) in Hin.
  apply products_run in Hin as [[]|Hin]. exact Hin.
Qed.

Lemma cart_screen_products op cart :
  cart_screen_op op -> incl (map product (apply op cart)) (map product cart).
Proof.
  intros Hop p Hp. apply products_apply in Hp as [Hp|Hadd]; [exact Hp|].
  subst op. destruct Hop.
Qed.

Lemma cart_screen_run ops cart :
  Forall cart_screen_op ops -> incl (map product (run ops cart)) (map product cart).
Proof.
  intros Hops. revert cart. induction Hops as [|op ops Hop _ IH]; intros cart; simpl.
  - apply incl_refl.
  - eapply incl_tran; [apply IH | apply cart_screen_products, Hop].
Qed.
End Sessions.

(** X25. [CartScreen], which starts from its three [initialCartItems]:
    after any sequence of presses of plus, minus and Remove the identities
    of the cart are unique, every quantity is at least 1, every line holds
    one of the three initial products, and there are three lines at most. *)
Theorem cart_screen_invariants (ops : list (Operation CartScreen.Entry string)) :
  Forall cart_screen_op ops ->
  let cartItems := run ops CartScreen.initialCartItems in
  unique_ids cartItems
  /\ quantities_from 1 cartItems
  /\ incl (map product cartItems) (map product CartScreen.initialCartItems)
  /\ (List.length cartItems <= 3)%nat.
Proof.
  intros Hops cartItems.
  assert (Hnd : unique_ids cartItems).
  { apply run_unique. unfold unique_ids. simpl.
    repeat constructor; simpl; intuition discriminate. }
  assert (Hincl : incl (map product cartItems) (map product CartScreen.initialCartItems)).
  { apply cart_screen_run, Hops. }
  split; [exact Hnd|]. split; [|split; [exact Hincl|]].
  - apply run_quantities. repeat constructor; simpl; lia.
  - change 3%nat with (List.length (ids CartScreen.initialCartItems)).
    rewrite <- (length_map line_id cartItems). apply NoDup_incl_length; [exact Hnd|].
    intros k Hk. apply in_map_iff in Hk as (item & <- & Hin).
    apply (in_map product) in Hin. apply Hincl in Hin.
    apply in_map_iff in Hin as (item0 & Hprod & Hin0).
    unfold line_id. rewrite <- Hprod. apply in_ids, Hin0.
Qed.

(** * Instances on the sample data *)

Section Instances.
Import ShopData Samples.

Lemma sample_cart_unique : unique_ids cart.
Proof. unfold unique_ids. simpl. repeat constructor; simpl; intuition discriminate. Defined.

Lemma sample_cart_quantities : quantities_from 1 cart.
Proof. repeat constructor; simpl; lia. Defined.


Lemma getCartItem_addToCart_witness :
  ShoppingScreen.getCartItem (ShoppingScreen.addToCart backpack cart) 2
  = ShoppingScreen.getCartItem cart 2.
Proof.
  apply (proj2 (getCartItem_addToCart backpack cart) 2). discriminate.
Defined.

Lemma getCartItem_removeFromCart_witness :
  ShoppingScreen.getCartItem (ShoppingScreen.removeFromCart 1 cart) 2
  = ShoppingScreen.getCartItem cart 2.
Proof.
  apply (proj2 (getCartItem_removeFromCart cart 1) 2). discriminate.
Defined.

Lemma getCartItem_decreaseQuantity_witness :
  ShoppingScreen.getCartItem (ShoppingScreen.decreaseQuantity 2 cart) 2
  = match ShoppingScreen.getCartItem cart 2 with
    | Some item =>
        if 1 <? quantity item
        then Some (with_quantity item (quantity item - 1))
        else None
    | None => None
    end
  /\ (forall k', k' <> 2 ->
        ShoppingScreen.getCartItem (ShoppingScreen.decreaseQuantity 2 cart) k'
        = ShoppingScreen.getCartItem cart k').
Proof.
  exact (getCartItem_decreaseQuantity cart 2 sample_cart_unique sample_cart_quantities).
Defined.

Lemma plus_then_minus_clamp_witness :
  CartScreen.decreaseQuantity 2 (CartScreen.increaseQuantity 2 cart) = cart.
Proof. exact (plus_then_minus_clamp 2 cart sample_cart_quantities). Defined.

Lemma add_then_decrease_witness :
  ShoppingScreen.decreaseQuantity (identity ring) (ShoppingScreen.addToCart ring cart)
  = cart.
Proof. exact (add_then_decrease ring cart sample_cart_quantities). Defined.

Lemma minus_n_times_clamp_witness :
  Nat.iter 3 (CartScreen.decreaseQuantity 1) cart
  = update 1 (fun q => Z.max 1 (q - Z.of_nat 3)) cart.
Proof. exact (minus_n_times_clamp 1 cart 3 sample_cart_quantities). Defined.

Lemma minus_n_times_remove_witness :
  Nat.iter 2 (ShoppingScreen.decreaseQuantity 1) cart
  = if Z.of_nat 2 <? quantity (mkCartItem backpack 2)
    then update 1 (fun q => q - Z.of_nat 2) cart
    else ShoppingScreen.removeFromCart 1 cart.
Proof.
  exact (minus_n_times_remove 1 cart (mkCartItem backpack 2) 2
           sample_cart_unique sample_cart_quantities eq_refl).
Defined.

Lemma totalCartItems_addToCart_witness :
  ShoppingScreen.totalCartItems (ShoppingScreen.addToCart backpack cart)
  = ShoppingScreen.totalCartItems cart + 1.
Proof. exact (totalCartItems_addToCart backpack cart sample_cart_unique). Defined.

Lemma totalCartItems_decreaseQuantity_witness :
  ShoppingScreen.totalCartItems (ShoppingScreen.decreaseQuantity 2 cart)
  = match ShoppingScreen.getCartItem cart 2 with
    | Some _ => ShoppingScreen.totalCartItems cart - 1
    | None => ShoppingScreen.totalCartItems cart
    end.
Proof.
  exact (totalCartItems_decreaseQuantity 2 cart
           sample_cart_unique sample_cart_quantities).
Defined.

Lemma totalCartItems_removeFromCart_witness :
  ShoppingScreen.totalCartItems (ShoppingScreen.removeFromCart 1 cart)
  = ShoppingScreen.totalCartItems cart
    - match ShoppingScreen.getCartItem cart 1 with
      | Some item => quantity item
      | None => 0
      end.
Proof. exact (totalCartItems_removeFromCart 1 cart sample_cart_unique). Defined.

Lemma cartBadge_shown_witness :
  Z.of_nat (List.length cart) <= ShoppingScreen.totalCartItems cart
  /\ (cartBadge cart = None <-> cart = []).
Proof. exact (cartBadge_shown cart sample_cart_quantities). Defined.

Lemma remove_all_empties_witness :
  fold_left (fun c k => CartScreen.removeItem k c) [2; 1; 2] cart = []
  /\ paymentDisabled (fold_left (fun c k => CartScreen.removeItem k c) [2; 1; 2] cart)
     = true.
Proof.
  apply (remove_all_empties [2; 1; 2] cart).
  intros k Hin. simpl in Hin. simpl. intuition.
Defined.

Lemma add_then_remove_witness :
  ShoppingScreen.removeFromCart (identity backpack)
    (ShoppingScreen.addToCart backpack [mkCartItem ring 1])
  = [mkCartItem ring 1].
Proof.
  apply (proj2 (add_then_remove backpack [mkCartItem ring 1])). reflexivity.
Defined.

Lemma plus_changes_one_line_witness :
  ShoppingScreen.addToCart ring cart
  = [mkCartItem backpack 2] ++ mkCartItem ring (1 + 1) :: []
  /\ CartScreen.increaseQuantity 2 cart
     = [mkCartItem backpack 2] ++ mkCartItem ring (1 + 1) :: [].
Proof.
  apply (proj1 (plus_changes_one_line ring cart sample_cart_unique)
           [mkCartItem backpack 2] (mkCartItem ring 1) []); reflexivity.
Defined.

Lemma empty_query_lists_all_witness :
  Search.filteredProducts Search.toLowerCaseAscii catalog "" = catalog.
Proof.
  exact (SearchFacts.empty_query_lists_all Search.toLowerCaseAscii catalog eq_refl).
Defined.

Lemma longer_query_narrows_witness :
  Search.filteredProducts Search.toLowerCaseAscii
    (Search.filteredProducts Search.toLowerCaseAscii catalog "PACK") "Backpack"
  = Search.filteredProducts Search.toLowerCaseAscii catalog "Backpack"
  /\ incl (Search.filteredProducts Search.toLowerCaseAscii catalog "Backpack")
          (Search.filteredProducts Search.toLowerCaseAscii catalog "PACK").
Proof.
  exact (SearchFacts.longer_query_narrows Search.toLowerCaseAscii catalog
           "PACK" "Backpack" eq_refl).
Defined.

Lemma found_by_title_or_category_witness :
  In ring (Search.filteredProducts Search.toLowerCaseAscii catalog "JEWELERY").
Proof.
  apply (SearchFacts.found_by_title_or_category Search.toLowerCaseAscii catalog ring).
  - simpl. tauto.
  - right. reflexivity.
Defined.

Lemma toggleExpand_flips_witness :
  FAQScreen.expanded (FAQScreen.toggleExpand 1 [0; 1]%nat) 0
  = FAQScreen.expanded [0; 1]%nat 0.
Proof.
  apply (proj2 (FAQFacts.toggleExpand_flips 1 0 [0; 1]%nat)). discriminate.
Defined.

Lemma toggleExpand_twice_witness :
  FAQScreen.toggleExpand 1 (FAQScreen.toggleExpand 1 [0; 2]%nat) = [0; 2]%nat.
Proof. exact (FAQFacts.toggleExpand_twice 1 [0; 2]%nat eq_refl). Defined.
Lemma lines_were_added_witness :
  In (AddOrIncrement backpack : Operation Product Z)
     [AddOrIncrement ring; AddOrIncrement backpack].
Proof.
  apply (lines_were_added [AddOrIncrement ring; AddOrIncrement backpack]
           (mkCartItem backpack 1)).
  vm_compute. right. left. reflexivity.
Defined.

Lemma cart_screen_invariants_witness :
  let cartItems :=
    run [Increment "2"; Decrement Clamp "1"; Remove "3"]%string
        CartScreen.initialCartItems in
  unique_ids cartItems
  /\ quantities_from 1 cartItems
  /\ incl (map product cartItems) (map product CartScreen.initialCartItems)
  /\ (List.length cartItems <= 3)%nat.
Proof.
  apply (cart_screen_invariants [Increment "2"; Decrement Clamp "1"; Remove "3"]%string).
  repeat constructor.
Defined.
Example search_in_title :
  Search.filteredProducts Search.toLowerCaseAscii catalog "GOLD" = [ring].
Proof. reflexivity. Qed.

Example search_in_category :
  Search.filteredProducts Search.toLowerCaseAscii catalog "clothing" = [backpack].
Proof. reflexivity. Qed.

Example search_without_match :
  Search.filteredProducts Search.toLowerCaseAscii catalog "shoe" = [].
Proof. reflexivity. Qed.

Example faq_presses :
  fold_left (fun prev index => FAQScreen.toggleExpand index prev) [0; 2; 0; 1]%nat []
  = [2; 1]%nat.
Proof. reflexivity. Qed.

Example badge_of_sample_cart : cartBadge cart = Some 3.
Proof. reflexivity. Qed.
End Instances.
